(** * Change management for GitHub pull requests: the marker codec and the
      event router of [.github/change_management.py]

    The script keeps the link between a pull request and its Asana task in
    the pull-request body, inside a [<details>] block.  This development
    embeds the three text routines ([add_cm_details_to_pr_body],
    [remove_cm_details_from_pr_body], [parse_cm_info_from_pr_body]), the two
    HTTP clients and the [__main__] block, and states the properties of
    the specification about them. *)

From Stdlib Require Import String Ascii.
From Stdlib Require Import List NArith ZArith Bool Arith Lia.
From Stdlib Require Import Numbers.DecimalString.
Import ListNotations.

(** ** Python strings

    A Python [str] is a sequence of Unicode code points.  A character is its
    code point, a string the list of its characters. *)

Definition char := N.
Definition str := list char.

Definition str_of (s : string) : str :=
  map N_of_ascii (list_ascii_of_string s).

Definition NL : char := 10%N.
Definition CR : char := 13%N.
Definition DQ : char := 34%N.
Definition SLASH : char := 47%N.

Definition char_eqb (a b : char) : bool := N.eqb a b.

(** [a == b] on strings. *)
Fixpoint str_eqb (a b : str) : bool :=
  match a, b with
  | [], [] => true
  | x :: a', y :: b' => char_eqb x y && str_eqb a' b'
  | _, _ => false
  end.

(** [str.splitlines] breaks at these characters: line feed, carriage return,
    vertical tab, form feed, the file, group and record separators, next
    line (U+0085), line separator (U+2028) and paragraph separator
    (U+2029). *)
Definition is_linebreak (c : char) : bool :=
  existsb (char_eqb c) [10; 13; 11; 12; 28; 29; 30; 133; 8232; 8233]%N.

(** [s.splitlines()]: the lines of [s] without their line breaks.  A
    carriage return directly followed by a line feed is one break, and a
    break at the very end of [s] opens no further line. *)
Fixpoint splitlines (s : str) : list str :=
  match s with
  | [] => []
  | c :: rest =>
      if is_linebreak c then
        [] :: (if char_eqb c CR then
                 match rest with
                 | c' :: rest' =>
                     if char_eqb c' NL then splitlines rest' else splitlines rest
                 | [] => []
                 end
               else splitlines rest)
      else
        match splitlines rest with
        | [] => [[c]]
        | l :: ls => (c :: l) :: ls
        end
  end.

(** [s.startswith(sub)]. *)
Fixpoint starts_with (sub s : str) : bool :=
  match sub, s with
  | [], _ => true
  | x :: sub', y :: s' => char_eqb x y && starts_with sub' s'
  | _ :: _, [] => false
  end.

(** The lowest position [>= i] at which [sub] occurs, [s] being the part of
    the string from position [i] on. *)
Fixpoint find_from (sub s : str) (i : nat) : option nat :=
  if starts_with sub s then Some i
  else match s with
       | [] => None
       | _ :: s' => find_from sub s' (S i)
       end.

(** [s[a:b]] for non-negative [a] and [b]. *)
Definition slice (s : str) (a b : nat) : str := firstn (b - a) (skipn a s).

(** [sub in s]. *)
Definition contains (sub s : str) : bool :=
  match find_from sub s 0 with Some _ => true | None => false end.

(** [s.split(sep)] for a separator of one character, the only use the script
    makes of it ([split("/")]). *)
Fixpoint split (sep : char) (s : str) : list str :=
  match s with
  | [] => [[]]
  | c :: rest =>
      if char_eqb c sep then [] :: split sep rest
      else match split sep rest with
           | l :: ls => (c :: l) :: ls
           | [] => [[c]]
           end
  end.

(** ** Exceptions and results *)

Inductive exn : Type :=
| ValueError
| IndexError
| TypeError
| KeyError
| JSONDecodeError
| Exception (msg : str).

Inductive result (A : Type) : Type :=
| Ok (a : A)
| Raise (e : exn).

Arguments Ok {A} a.
Arguments Raise {A} e.

Definition rbind {A B} (r : result A) (k : A -> result B) : result B :=
  match r with
  | Ok a => k a
  | Raise e => Raise e
  end.

(** [s.index(sub, start)]: raises [ValueError] when [sub] does not occur at
    or after [start]. *)
Definition str_index (sub s : str) (start : nat) : result nat :=
  if Nat.leb start (length s) then
    match find_from sub (skipn start s) start with
    | Some i => Ok i
    | None => Raise ValueError
    end
  else Raise ValueError.

(** [l[i]] on a list. *)
Definition list_get {A} (l : list A) (i : nat) : result A :=
  match nth_error l i with
  | Some a => Ok a
  | None => Raise IndexError
  end.

(** ** The marker codec *)

Definition DETAILS_OPEN : str := Eval cbv in str_of "<details>".
Definition DETAILS_CLOSE : str := Eval cbv in str_of "</details>".
Definition LABEL : str := Eval cbv in str_of "<summary>Change Management</summary>".
Definition A_HREF : str := Eval cbv in str_of "<a href=".
Definition A_TEXT : str := Eval cbv in str_of ">Asana task</a>".
Definition HREF : str := Eval cbv in str_of "href".

(** The dictionary [{"task_gid": gid, "task_url": url}].  The script reads
    the two values inside f-strings only, so the record holds their text. *)
Record cm_task_info : Type := mk_info { task_gid : str; task_url : str }.

(** The link line that [add_cm_details_to_pr_body] writes for a task URL. *)
Definition link_line (cm_task_url : str) : str :=
  A_HREF ++ [DQ] ++ cm_task_url ++ [DQ] ++ A_TEXT.

(** The f-string of [add_cm_details_to_pr_body]: the body, an empty line, and
    the four lines of the block, each ended by a line feed. *)
Definition add_cm_details_to_pr_body (pr_body cm_task_url : str) : str :=
  pr_body ++ [NL] ++
  [NL] ++
  DETAILS_OPEN ++ [NL] ++
  LABEL ++ [NL] ++
  link_line cm_task_url ++ [NL] ++
  DETAILS_CLOSE ++ [NL].

(** The three variables of the loop of [remove_cm_details_from_pr_body]. *)
Record strip_state : Type := mk_strip
  { new_body : str; in_cm : bool; test_in_cm : bool }.

Definition strip_init : strip_state := mk_strip [] false false.

(** One pass of the loop body for [line]. *)
Definition strip_step (st : strip_state) (line : str) : strip_state :=
  if negb (test_in_cm st) && str_eqb line DETAILS_OPEN then
    (* test_in_cm = True; continue *)
    mk_strip (new_body st) (in_cm st) true
  else
    let st1 :=
      if test_in_cm st then
        if str_eqb line LABEL then mk_strip (new_body st) true false
        else mk_strip (new_body st ++ [NL] ++ DETAILS_OPEN) (in_cm st) (test_in_cm st)
      else st in
    let st2 :=
      if negb (in_cm st1) then
        mk_strip (new_body st1 ++ [NL] ++ line) (in_cm st1) (test_in_cm st1)
      else st1 in
    if in_cm st2 && str_eqb line DETAILS_CLOSE then
      mk_strip (new_body st2) false (test_in_cm st2)
    else st2.

Definition strip_loop (st : strip_state) (lines : list str) : strip_state :=
  fold_left strip_step lines st.

Definition remove_cm_details_from_pr_body (pr_body : str) : str :=
  new_body (strip_loop strip_init (splitlines pr_body)).

(** The body of the [elif next_line] branch of
    [parse_cm_info_from_pr_body]. *)
Definition parse_link (line : str) : result cm_task_info :=
  rbind (str_index HREF line 0) (fun href_index =>
  rbind (str_index [DQ] line href_index) (fun q =>
  let url_start_index := q + 1 in
  rbind (str_index [DQ] line url_start_index) (fun url_end_index =>
  let url := slice line url_start_index url_end_index in
  let url_parts := split SLASH url in
  rbind (list_get url_parts (length url_parts - 1)) (fun gid =>
  Ok (mk_info gid url))))).

(** The loop of [parse_cm_info_from_pr_body], [next_line] being its flag. *)
Fixpoint parse_loop (next_line : bool) (lines : list str)
  : result (option cm_task_info) :=
  match lines with
  | [] => Ok None
  | line :: rest =>
      if str_eqb line LABEL then parse_loop true rest
      else if next_line then
        rbind (parse_link line) (fun info => Ok (Some info))
      else parse_loop next_line rest
  end.

Definition parse_cm_info_from_pr_body (pr_body : str)
  : result (option cm_task_info) :=
  parse_loop false (splitlines pr_body).

(** ** JSON values, requests and responses *)

#[local] Unset Elimination Schemes.
Inductive json : Type :=
| JNull
| JBool (b : bool)
| JNum (literal : str)
| JStr (s : str)
| JList (l : list json)
| JObj (fields : list (str * json)).
#[local] Set Elimination Schemes.

(** [j[key]] on a parsed JSON value: [KeyError] when a dictionary lacks the
    key, [TypeError] when [j] is no dictionary. *)
Fixpoint assoc (key : str) (fields : list (str * json)) : option json :=
  match fields with
  | [] => None
  | (k, v) :: rest => if str_eqb k key then Some v else assoc key rest
  end.

Definition json_get (j : json) (key : str) : result json :=
  match j with
  | JObj fields =>
      match assoc key fields with
      | Some v => Ok v
      | None => Raise KeyError
      end
  | _ => Raise TypeError
  end.

Inductive host : Type := Asana | Github.

(** The arguments of one [requests.request] call. *)
Record request : Type := mk_request
  { req_host : host;
    req_method : str;
    req_url : str;
    req_json : option json;
    req_headers : list (str * str) }.

(** The fields of the response that the script reads. *)
Record response : Type := mk_response
  { status_code : Z; text : str }.

(** What one run leaves behind: the requests it sent, oldest first, and the
    values it printed. *)
Inductive output : Type :=
| OutStr (s : str)
| OutInfo (i : option cm_task_info).

Record world : Type := mk_world
  { calls : list request; stdout : list output }.

Definition world0 : world := mk_world [] [].

(** Computations that send requests, print and may raise. *)
Definition M (A : Type) : Type := world -> result A * world.

Definition ret {A} (a : A) : M A := fun w => (Ok a, w).

Definition raise {A} (e : exn) : M A := fun w => (Raise e, w).

Definition bind {A B} (m : M A) (k : A -> M B) : M B :=
  fun w =>
    match m w with
    | (Ok a, w') => k a w'
    | (Raise e, w') => (Raise e, w')
    end.

Definition lift {A} (r : result A) : M A := fun w => (r, w).

Definition print (o : output) : M unit :=
  fun w => (Ok tt, mk_world (calls w) (stdout w ++ [o])).

Declare Scope cm_scope.
Delimit Scope cm_scope with cm.
Notation "x <- m ;; k" := (bind m (fun x => k))
  (at level 61, m at next level, right associativity) : cm_scope.
Notation "m ;; k" := (bind m (fun _ => k))
  (at level 61, right associativity) : cm_scope.

(** [str(n)] for an integer. *)
Definition str_of_Z (n : Z) : str := str_of (NilZero.string_of_int (Z.to_int n)).

(** [f"{v}"] for the value of [os.getenv]. *)
Definition fmt_env (v : option str) : str :=
  match v with
  | Some s => s
  | None => str_of "None"
  end.

Section Script.

(** The two remote services: the response to a request, given the requests
    sent before it. *)
Variable remote : list request -> request -> response.

(** [res.json()]: the decoder of the [requests] library, [None] when the
    response body is not valid JSON (the call raises then). *)
Variable json_loads : str -> option json.

(** The module-level constants. *)
Variable ASANA_API_TOKEN : option str.
Variable GITHUB_TOKEN : option str.

(** [str(v)] for a parsed JSON value that is no string (a number, a boolean,
    [None], a list or a dictionary), as an f-string formats it. *)
Variable py_str : json -> str.

(** [f"{v}"] for a parsed JSON value: a string is written as it is. *)
Definition fmt_value (v : json) : str :=
  match v with
  | JStr s => s
  | _ => py_str v
  end.

Definition PROJECT_GID : str := Eval cbv in str_of "1202267217415053".
Definition SECTION_GID : str := Eval cbv in str_of "1203075160692525".

(** [requests.request]: the request is sent and answered.  Both services
    are taken to answer every request; a connection that fails is outside
    the model. *)
Definition requests_request (r : request) : M response :=
  fun w => (Ok (remote (calls w) r), mk_world (calls w ++ [r]) (stdout w)).

Definition res_json (res : response) : M json :=
  match json_loads (text res) with
  | Some j => ret j
  | None => raise JSONDecodeError
  end.

Local Open Scope cm_scope.

(** The arguments that [post_to_asana] passes to [requests.request]. *)
Definition asana_request (uri : str) (data : option json) (method : str) : request :=
  let headers :=
    [ (str_of "Authorization", str_of "Bearer " ++ fmt_env ASANA_API_TOKEN);
      (str_of "Content-Type", str_of "application/json");
      (str_of "Accept", str_of "application/json") ] in
  mk_request Asana method (str_of "https://app.asana.com/api/1.0" ++ uri)
             data headers.

Definition post_to_asana (uri : str) (data : option json) (method : str) : M json :=
  res <- requests_request (asana_request uri data method) ;;
  if (status_code res >? 299)%Z then raise (Exception (text res))
  else res_json res.

(** The arguments that [post_to_github] passes to [requests.request]. *)
Definition github_request (uri : str) (data : option json) (method : str) : request :=
  let headers :=
    [ (str_of "Accept", str_of "application/vnd.github+json");
      (str_of "Authorization", str_of "Bearer " ++ fmt_env GITHUB_TOKEN) ] in
  mk_request Github method (str_of "https://api.github.com" ++ uri)
             data headers.

Definition post_to_github (uri : str) (data : option json) (method : str) : M json :=
  res <- requests_request (github_request uri data method) ;;
  if (status_code res >? 299)%Z then raise (Exception (text res))
  else res_json res.

Definition POST : str := Eval cbv in str_of "POST".
Definition PUT : str := Eval cbv in str_of "PUT".
Definition DELETE : str := Eval cbv in str_of "DELETE".

(** [cm_task_info['task_gid']], [cm_task_info] being a dictionary or
    [None]. *)
Definition info_gid (cm_task_info : option cm_task_info) : M str :=
  match cm_task_info with
  | Some i => ret (task_gid i)
  | None => raise TypeError
  end.

Definition info_url (cm_task_info : option cm_task_info) : M str :=
  match cm_task_info with
  | Some i => ret (task_url i)
  | None => raise TypeError
  end.

Definition delete_cm_task (cm_task_info : option cm_task_info) : M unit :=
  gid <- info_gid cm_task_info ;;
  post_to_asana (str_of "/tasks/" ++ gid) None DELETE ;;
  ret tt.

Definition add_comment_to_cm_task (cm_task_info : option cm_task_info)
           (comment : str) : M unit :=
  let post_data := JObj [(str_of "data", JObj [(str_of "text", JStr comment)])] in
  gid <- info_gid cm_task_info ;;
  post_to_asana (str_of "/tasks/" ++ gid ++ str_of "/stories") (Some post_data) POST ;;
  ret tt.

(** The parsed command line. *)
Record Args : Type := mk_args
  { repo : str; pr_info_file : str; github_event_action : str }.

(** The keys of the pull-request payload that the script reads;
    [payload_body] is [None] for a JSON [null]. *)
Record payload : Type := mk_payload
  { payload_number : Z;
    payload_title : str;
    payload_body : option str;
    payload_login : str;
    payload_html_href : str;
    payload_merged : bool }.

(** The payload once [__main__] has replaced a [None] body by the empty
    string. *)
Record pr_data : Type := mk_pr
  { number : Z;
    title : str;
    body : str;
    login : str;
    html_href : str;
    merged : bool }.

(** [args.repo.split("/")[1]]. *)
Definition repo_name_of (args : Args) : M str :=
  lift (list_get (split SLASH (repo args)) 1).

Definition create_cm_task (args : Args) (pr : pr_data) : M cm_task_info :=
  repo_name <- repo_name_of args ;;
  let task_name := repo_name ++ str_of ": " ++ title pr in
  let post_data :=
    JObj [(str_of "data",
           JObj [(str_of "projects", JList [JStr PROJECT_GID]);
                 (str_of "followers", JList []);
                 (str_of "name", JStr task_name)])] in
  task <- post_to_asana (str_of "/tasks") (Some post_data) POST ;;
  task_data <- lift (json_get task (str_of "data")) ;;
  gid_v <- lift (json_get task_data (str_of "gid")) ;;
  url_v <- lift (json_get task_data (str_of "permalink_url")) ;;
  let cm_task_info := mk_info (fmt_value gid_v) (fmt_value url_v) in
  let comment :=
    str_of "PR created by " ++ login pr ++ str_of ": " ++ html_href pr in
  add_comment_to_cm_task (Some cm_task_info) comment ;;
  let post_data := JObj [(str_of "data", JObj [(str_of "task", gid_v)])] in
  post_to_asana (str_of "/sections/" ++ SECTION_GID ++ str_of "/addTask")
                (Some post_data) POST ;;
  ret cm_task_info.

Definition pulls_uri (args : Args) (pr : pr_data) : str :=
  str_of "/repos/" ++ repo args ++ str_of "/pulls/" ++ str_of_Z (number pr).

Definition update_pr_description (args : Args) (pr : pr_data)
           (cm_task_info : option cm_task_info) : M unit :=
  url <- info_url cm_task_info ;;
  let post_data :=
    JObj [(str_of "body", JStr (add_cm_details_to_pr_body (body pr) url))] in
  post_to_github (pulls_uri args pr) (Some post_data) POST ;;
  ret tt.

Definition update_cm_task_name (args : Args) (pr : pr_data)
           (cm_task_info : option cm_task_info) : M unit :=
  repo_name <- repo_name_of args ;;
  let task_name := repo_name ++ str_of ": " ++ title pr in
  let post_data := JObj [(str_of "data", JObj [(str_of "name", JStr task_name)])] in
  gid <- info_gid cm_task_info ;;
  post_to_asana (str_of "/tasks/" ++ gid) (Some post_data) PUT ;;
  ret tt.

Definition complete_cm_task (cm_task_info : option cm_task_info) : M unit :=
  let post_data := JObj [(str_of "data", JObj [(str_of "completed", JBool true)])] in
  gid <- info_gid cm_task_info ;;
  post_to_asana (str_of "/tasks/" ++ gid) (Some post_data) PUT ;;
  ret tt.

Definition remove_cm_from_pr_description (args : Args) (pr : pr_data) : M unit :=
  let post_data :=
    JObj [(str_of "body", JStr (remove_cm_details_from_pr_body (body pr)))] in
  post_to_github (pulls_uri args pr) (Some post_data) POST ;;
  ret tt.

Definition EDITED : str := Eval cbv in str_of "edited".
Definition CLOSED : str := Eval cbv in str_of "closed".

(** The [__main__] block, from the parsed command line and the loaded
    payload on. *)
Definition main (args : Args) (p : payload) : M unit :=
  print (OutStr (str_of "repo: " ++ repo args)) ;;
  print (OutStr (str_of "pr_info_file: " ++ pr_info_file args)) ;;
  print (OutStr (str_of "github_event_action: " ++ github_event_action args)) ;;
  let pr :=
    mk_pr (payload_number p) (payload_title p)
          (match payload_body p with None => [] | Some b => b end)
          (payload_login p) (payload_html_href p) (payload_merged p) in
  cm_task_info <-
    (if negb (contains LABEL (body pr)) then
       info <- create_cm_task args pr ;;
       update_pr_description args pr (Some info) ;;
       ret (Some info)
     else lift (parse_cm_info_from_pr_body (body pr))) ;;
  print (OutInfo cm_task_info) ;;
  (if str_eqb (github_event_action args) EDITED then
     update_cm_task_name args pr cm_task_info
   else ret tt) ;;
  if str_eqb (github_event_action args) CLOSED then
    if merged pr then
      let comment := str_of "PR merged by " ++ login pr in
      add_comment_to_cm_task cm_task_info comment ;;
      complete_cm_task cm_task_info
    else
      remove_cm_from_pr_description args pr ;;
      delete_cm_task cm_task_info
  else ret tt.

End Script.

(** ** Vocabulary of the statements *)

(** A string without line-break characters. *)
Definition one_line (l : str) : Prop := Forall (fun c => is_linebreak c = false) l.

(** [line] is a link line whose href holds [u]: the first [href] of the line
    is followed, after some text [q] without a double quote (the [=] sign),
    by [u] between double quotes. *)
Definition href_holds (line u : str) : Prop :=
  exists p q r,
    line = p ++ HREF ++ q ++ [DQ] ++ u ++ [DQ] ++ r /\
    contains HREF (p ++ removelast HREF) = false /\
    ~ In DQ q /\
    ~ In DQ u.

(** [t] is the final path segment of [u]: what follows the last [/] of [u],
    or [u] itself when it has none. *)
Definition final_segment (u t : str) : Prop :=
  (exists h, u = h ++ SLASH :: t /\ ~ In SLASH t) \/ (u = t /\ ~ In SLASH u).

(** The permalink of scenario 1. *)
Definition url_123 : str := Eval cbv in str_of "https://service/0/tasks/123".

(** A URL with a double quote inside. *)
Definition url_with_quote : str := Eval cbv in str_of "a" ++ [DQ] ++ str_of "b".

(** A URL with a line feed inside. *)
Definition url_with_NL : str := Eval cbv in str_of "a" ++ [NL] ++ str_of "b".

(** A body whose label line is followed by a line without a link. *)
Definition malformed_body : str :=
  Eval cbv in LABEL ++ [NL] ++ str_of "no link here".

(** The body that the specification gives for scenario 1, up to the text of
    the link: what precedes that text and what follows it. *)
Definition scenario_1_head : str :=
  Eval cbv in
    [NL] ++ DETAILS_OPEN ++ [NL] ++ LABEL ++ [NL] ++
    A_HREF ++ [DQ] ++ url_123 ++ [DQ] ++ str_of ">".

Definition scenario_1_tail : str :=
  Eval cbv in str_of "</a>" ++ [NL] ++ DETAILS_CLOSE ++ [NL].

(** The body that the script computes for scenario 1. *)
Definition scenario_1_body : str :=
  Eval cbv in
    [NL; NL] ++ DETAILS_OPEN ++ [NL] ++ LABEL ++ [NL] ++
    A_HREF ++ [DQ] ++ url_123 ++ [DQ] ++ str_of ">Asana task</a>" ++ [NL] ++
    DETAILS_CLOSE ++ [NL].

(** A string that begins with a line feed. *)
Definition starts_with_NL (s : str) : Prop := exists t, s = NL :: t.

(** A string made of line feeds only; the empty string is one. *)
Definition only_NL (s : str) : Prop := Forall (fun c => c = NL) s.

(** A body with an unrelated [<details>] block before the block of the
    script. *)
Definition unrelated_block : str :=
  Eval cbv in
    DETAILS_OPEN ++ [NL] ++ str_of "<summary>Notes</summary>" ++ [NL] ++
    str_of "some notes" ++ [NL] ++ DETAILS_CLOSE ++ [NL].

Definition body_two_blocks : str :=
  Eval cbv in
    unrelated_block ++
    DETAILS_OPEN ++ [NL] ++ LABEL ++ [NL] ++ link_line url_123 ++ [NL] ++
    DETAILS_CLOSE ++ [NL].

(** What [remove_cm_details_from_pr_body] makes of it. *)
Definition stripped_two_blocks : str :=
  Eval cbv in
    [NL] ++ DETAILS_OPEN ++
    [NL] ++ str_of "<summary>Notes</summary>" ++
    [NL] ++ DETAILS_OPEN ++
    [NL] ++ str_of "some notes" ++
    [NL] ++ DETAILS_OPEN ++
    [NL] ++ DETAILS_CLOSE ++
    [NL] ++ DETAILS_OPEN ++
    [NL] ++ DETAILS_OPEN.

(** Scenario 1: an [opened] event on a pull request with an empty body, and
    a tracking service that answers every request with the new task. *)
Definition opened_args : Args :=
  mk_args (str_of "nrfta/go-paging") (str_of "pr.json") (str_of "opened").

Definition empty_payload : payload :=
  mk_payload 7 (str_of "Add cursor paging") (Some [])
             (str_of "dev") (str_of "https://github.com/nrfta/go-paging/pull/7")
             false.

Definition task_123 : json :=
  JObj [(str_of "data",
         JObj [(str_of "gid", JStr (str_of "123"));
               (str_of "permalink_url", JStr url_123)])].

(** An [edited] event on a pull request whose body carries the block. *)
Definition edited_args : Args :=
  mk_args (str_of "nrfta/go-paging") (str_of "pr.json") EDITED.

Definition annotated_body : str :=
  Eval cbv in add_cm_details_to_pr_body (str_of "Adds cursor paging.") url_123.

Definition annotated_payload : payload :=
  mk_payload 7 (str_of "Add cursor paging") (Some annotated_body)
             (str_of "dev") (str_of "https://github.com/nrfta/go-paging/pull/7")
             false.

(** ** Vocabulary of the further properties *)

(** Lines written the way [remove_cm_details_from_pr_body] writes them: each
    one after a line feed. *)
Definition join_lines (ls : list str) : str :=
  concat (map (fun l => NL :: l) ls).

(** [pr_data["body"]] once a [None] has been replaced by the empty string. *)
Definition payload_text (p : payload) : str :=
  match payload_body p with None => [] | Some b => b end.

(** The computation [m] only appends requests that satisfy [P] to the
    requests already sent. *)
Definition sends_only (P : request -> Prop) {A} (m : M A) : Prop :=
  forall w, exists new, calls (snd (m w)) = calls w ++ new /\ Forall P new.

Definition to_asana (r : request) : Prop := req_host r = Asana.

(** A body that mentions the label inside a sentence. *)
Definition inline_body : str :=
  Eval cbv in str_of "See " ++ LABEL ++ str_of " below".

(** A [closed] event, and pull requests that were merged or not. *)
Definition closed_args : Args :=
  mk_args (str_of "nrfta/go-paging") (str_of "pr.json") CLOSED.

Definition merged_payload : payload :=
  mk_payload 7 (str_of "Add cursor paging") (Some annotated_body)
             (str_of "dev") (str_of "https://github.com/nrfta/go-paging/pull/7")
             true.

(** A command line whose repository has no [/]. *)
Definition bare_args : Args :=
  mk_args (str_of "go-paging") (str_of "pr.json") (str_of "opened").

(** A body that holds the block after a stray label line: the label line,
    a line of text, then the four lines of the block. *)
Definition stray_label_body : str :=
  Eval cbv in
    LABEL ++ [NL] ++ str_of "see below" ++ [NL] ++
    DETAILS_OPEN ++ [NL] ++ LABEL ++ [NL] ++ link_line url_123 ++ [NL] ++
    DETAILS_CLOSE ++ [NL].


(** A link line with the text [href] inside another attribute, before the
    href attribute that holds the URL. *)
Definition title_href_line : str :=
  Eval cbv in
    str_of "<a title=" ++ [DQ] ++ str_of "href" ++ [DQ] ++ str_of " href=" ++
    [DQ] ++ url_123 ++ [DQ] ++ str_of ">Asana task</a>".

Definition title_href_body : str :=
  Eval cbv in LABEL ++ [NL] ++ title_href_line.

(** A formatter for values that are no strings; the runs below meet none. *)
Definition py_str_0 : json -> str := fun _ => [].

(** A service that answers every request with the task 123. *)
Definition remote_ok : list request -> request -> response :=
  fun _ _ => mk_response 200 [].

Definition loads_task : str -> option json := fun _ => Some task_123.

(** A service that refuses every request. *)
Definition remote_forbidden : list request -> request -> response :=
  fun _ _ => mk_response 403 (str_of "Forbidden").

(** * Properties *)

(** Closes [~ In l ls] for a concrete list of lines. *)
Ltac not_in_lines := simpl; intuition discriminate.

(** ** Strings *)

Lemma char_eqb_eq (a b : char) : char_eqb a b = true <-> a = b.
Proof. apply N.eqb_eq. Qed.

Lemma char_eqb_refl (a : char) : char_eqb a a = true.
Proof. apply N.eqb_refl. Qed.

Lemma char_eqb_neq (a b : char) : char_eqb a b = false <-> a <> b.
Proof. apply N.eqb_neq. Qed.

Lemma str_eqb_eq (a b : str) : str_eqb a b = true <-> a = b.
Proof.
  revert b; induction a as [|x a IH]; intros [|y b]; simpl; split;
    try congruence; try reflexivity.
  - intros H. apply andb_true_iff in H as [H1 H2].
    apply char_eqb_eq in H1. apply IH in H2. congruence.
  - intros H. injection H as -> ->.
    rewrite char_eqb_refl. simpl. now apply IH.
Qed.

Lemma str_eqb_refl (a : str) : str_eqb a a = true.
Proof. now apply str_eqb_eq. Qed.

Lemma str_eqb_neq (a b : str) : str_eqb a b = false <-> a <> b.
Proof.
  split.
  - intros H E. apply str_eqb_eq in E. congruence.
  - intros H. destruct (str_eqb a b) eqn:E; [|reflexivity].
    apply str_eqb_eq in E. contradiction.
Qed.

(** Induction on a string two characters at a time, as [splitlines] reads a
    carriage return together with the line feed after it. *)
Lemma str_ind2 (P : str -> Prop) :
  P [] ->
  (forall c, P [c]) ->
  (forall c c' r, P r -> P (c' :: r) -> P (c :: c' :: r)) ->
  forall s, P s.
Proof.
  intros H0 H1 H2 s.
  assert (H : P s /\ forall c, P (c :: s)); [|apply H].
  induction s as [|c' r [IHr IHc]]; split; auto.
Qed.

Lemma splitlines_cons_nonempty (c : char) (s : str) : splitlines (c :: s) <> [].
Proof.
  simpl. destruct (is_linebreak c); [discriminate|].
  destruct (splitlines s); discriminate.
Qed.

Lemma splitlines_cons (c : char) (rest : str) :
  splitlines (c :: rest) =
  if is_linebreak c then
    [] :: (if char_eqb c CR then
             match rest with
             | c' :: rest' =>
                 if char_eqb c' NL then splitlines rest' else splitlines rest
             | [] => []
             end
           else splitlines rest)
  else
    match splitlines rest with
    | [] => [[c]]
    | l :: ls => (c :: l) :: ls
    end.
Proof. reflexivity. Qed.

Lemma splitlines_NL (s : str) : splitlines (NL :: s) = [] :: splitlines s.
Proof. reflexivity. Qed.

Lemma splitlines_char (c : char) (s : str) :
  is_linebreak c = false ->
  splitlines (c :: s) =
  match splitlines s with [] => [[c]] | l :: ls => (c :: l) :: ls end.
Proof. intros H. simpl. now rewrite H. Qed.

(** A line followed by a line feed is the first line of the string. *)
Lemma splitlines_line (l rest : str) :
  one_line l -> splitlines (l ++ NL :: rest) = l :: splitlines rest.
Proof.
  induction 1 as [|c l Hc Hl IH]; [reflexivity|].
  change ((c :: l) ++ NL :: rest) with (c :: (l ++ NL :: rest)).
  rewrite splitlines_char by assumption. now rewrite IH.
Qed.

(** A last line that no line break ends. *)
Lemma splitlines_last (l : str) :
  one_line l -> l <> [] -> splitlines l = [l].
Proof.
  induction 1 as [|c l Hc Hl IH]; [congruence|]. intros _.
  rewrite splitlines_char by assumption.
  destruct l as [|c' l']; [reflexivity|].
  rewrite IH by discriminate. reflexivity.
Qed.

(** The lines before a line feed and the lines after it. *)
Lemma splitlines_app_NL (a b : str) :
  splitlines (a ++ NL :: b) = splitlines (a ++ [NL]) ++ splitlines b.
Proof.
  revert b. induction a as [| c | c c' r IHr IHc] using str_ind2; intros b.
  - reflexivity.
  - simpl. destruct (is_linebreak c); [|reflexivity].
    destruct (char_eqb c CR); reflexivity.
  - specialize (IHc b). specialize (IHr b).
    change ((c :: c' :: r) ++ NL :: b) with (c :: c' :: (r ++ NL :: b)).
    change ((c :: c' :: r) ++ [NL]) with (c :: c' :: (r ++ [NL])).
    change ((c' :: r) ++ NL :: b) with (c' :: (r ++ NL :: b)) in IHc.
    change ((c' :: r) ++ [NL]) with (c' :: (r ++ [NL])) in IHc.
    rewrite !(splitlines_cons c). cbv iota.
    destruct (is_linebreak c).
    + destruct (char_eqb c CR); [destruct (char_eqb c' NL)|];
        rewrite ?IHc, ?IHr; reflexivity.
    + rewrite IHc.
      destruct (splitlines (c' :: r ++ [NL])) eqn:E; [|reflexivity].
      now apply splitlines_cons_nonempty in E.
Qed.

(** A line feed after [a] ends its last line, or opens an empty one when [a]
    already ends with a break. *)
Lemma splitlines_snoc_NL (a : str) :
  splitlines (a ++ [NL]) = splitlines a \/
  splitlines (a ++ [NL]) = splitlines a ++ [[]].
Proof.
  induction a as [| c | c c' r IHr IHc] using str_ind2.
  - right. reflexivity.
  - simpl. destruct (is_linebreak c); [|left; reflexivity].
    destruct (char_eqb c CR); [left|right]; reflexivity.
  - change ((c :: c' :: r) ++ [NL]) with (c :: c' :: (r ++ [NL])).
    change ((c' :: r) ++ [NL]) with (c' :: (r ++ [NL])) in IHc.
    rewrite !(splitlines_cons c). cbv iota.
    destruct (is_linebreak c).
    + destruct (char_eqb c CR); [destruct (char_eqb c' NL)|].
      * destruct IHr as [-> | ->]; [left|right]; reflexivity.
      * destruct IHc as [-> | ->]; [left|right]; reflexivity.
      * destruct IHc as [-> | ->]; [left|right]; reflexivity.
    + destruct IHc as [-> | ->]; [left; reflexivity|right].
      destruct (splitlines (c' :: r)) eqn:E; [|reflexivity].
      now apply splitlines_cons_nonempty in E.
Qed.

(** The first line of a string is a prefix of it. *)
Lemma splitlines_head_prefix (s l : str) (ls : list str) :
  splitlines s = l :: ls -> exists q, s = l ++ q.
Proof.
  revert l ls. induction s as [|c s IH]; intros l ls; [discriminate|].
  rewrite splitlines_cons. destruct (is_linebreak c).
  - intros H. injection H as <- _. now exists (c :: s).
  - destruct (splitlines s) as [|l0 ls0] eqn:E; intros H; injection H as <- _.
    + now exists s.
    + destruct (IH _ _ eq_refl) as [q ->]. now exists q.
Qed.

(** Every line of a string is a piece of it. *)
Lemma splitlines_In_substring (s l : str) :
  In l (splitlines s) -> exists p q, s = p ++ l ++ q.
Proof.
  revert l. induction s as [| c | c c' r IHr IHc] using str_ind2; intros l.
  - intros [].
  - simpl. destruct (is_linebreak c).
    + destruct (char_eqb c CR); intros [<- | []]; now exists [], [c].
    + intros [<- | []]. now exists [], [].
  - rewrite splitlines_cons.
    assert (Hr : In l (splitlines r) -> exists p q, c :: c' :: r = p ++ l ++ q).
    { intros H. destruct (IHr _ H) as (p & q & ->). now exists (c :: c' :: p), q. }
    assert (Hc : In l (splitlines (c' :: r)) ->
                 exists p q, c :: c' :: r = p ++ l ++ q).
    { intros H. destruct (IHc _ H) as (p & q & ->). now exists (c :: p), q. }
    destruct (is_linebreak c).
    + intros [<- | H]; [now exists [], (c :: c' :: r)|].
      destruct (char_eqb c CR); [destruct (char_eqb c' NL)|]; auto.
    + destruct (splitlines (c' :: r)) as [|l0 ls0] eqn:E;
        [now apply splitlines_cons_nonempty in E|].
      intros [<- | H].
      * destruct (splitlines_head_prefix _ _ _ E) as [q ->]. now exists [], q.
      * apply Hc. now right.
Qed.

(** No line of a string holds a line-break character. *)
Lemma splitlines_one_line (s l : str) : In l (splitlines s) -> one_line l.
Proof.
  revert l. induction s as [| c | c c' r IHr IHc] using str_ind2; intros l.
  - intros [].
  - simpl. destruct (is_linebreak c) eqn:Hc.
    + destruct (char_eqb c CR); intros [<- | []]; constructor.
    + intros [<- | []]. now repeat constructor.
  - rewrite splitlines_cons. destruct (is_linebreak c) eqn:Hb.
    + intros [<- | H]; [constructor|].
      destruct (char_eqb c CR); [destruct (char_eqb c' NL)|]; auto.
    + destruct (splitlines (c' :: r)) as [|l0 ls0] eqn:E;
        [now apply splitlines_cons_nonempty in E|].
      intros [<- | H].
      * constructor; [assumption|]. apply IHc. now left.
      * apply IHc. now right.
Qed.

Lemma starts_with_app (sub q : str) : starts_with sub (sub ++ q) = true.
Proof.
  induction sub as [|x sub IH]; [reflexivity|].
  simpl. now rewrite char_eqb_refl.
Qed.

Lemma find_from_eq (sub s : str) (i : nat) :
  find_from sub s i =
  if starts_with sub s then Some i
  else match s with
       | [] => None
       | _ :: s' => find_from sub s' (S i)
       end.
Proof. destruct s; reflexivity. Qed.

(** [sub in s] holds of every string around [sub]. *)
Lemma contains_app (sub p q : str) : contains sub (p ++ sub ++ q) = true.
Proof.
  unfold contains.
  assert (H : forall i, find_from sub (p ++ sub ++ q) i <> None).
  { induction p as [|c p IH]; intros i; rewrite find_from_eq.
    - simpl. now rewrite starts_with_app.
    - destruct (starts_with sub ((c :: p) ++ sub ++ q)); [discriminate|].
      apply IH. }
  specialize (H 0). now destruct (find_from sub (p ++ sub ++ q) 0).
Qed.

Lemma contains_line (s l : str) : In l (splitlines s) -> contains l s = true.
Proof.
  intros H. destruct (splitlines_In_substring _ _ H) as (p & q & ->).
  apply contains_app.
Qed.

(** ** Searching a string *)

Lemma starts_with_app_l (sub a b : str) :
  length sub <= length a -> starts_with sub (a ++ b) = starts_with sub a.
Proof.
  revert a. induction sub as [|x sub IH]; intros a H; [reflexivity|].
  destruct a as [|y a]; simpl in H; [lia|].
  simpl. rewrite IH by lia. reflexivity.
Qed.

Lemma find_from_None_shift (sub s : str) (i j : nat) :
  find_from sub s i = None -> find_from sub s j = None.
Proof.
  revert i j. induction s as [|c s IH]; intros i j.
  - rewrite (find_from_eq sub [] i), (find_from_eq sub [] j).
    now destruct (starts_with sub []).
  - rewrite (find_from_eq sub (c :: s) i), (find_from_eq sub (c :: s) j).
    destruct (starts_with sub (c :: s)); [discriminate|]. apply IH.
Qed.

(** The first occurrence of a character. *)
Lemma find_from_char (c : char) (a b : str) (i : nat) :
  ~ In c a -> find_from [c] (a ++ c :: b) i = Some (i + length a).
Proof.
  revert i. induction a as [|x a IH]; intros i H; rewrite find_from_eq.
  - simpl. rewrite char_eqb_refl. simpl. f_equal. lia.
  - simpl in H. simpl starts_with.
    assert (E : char_eqb c x = false) by (apply char_eqb_neq; intuition).
    rewrite E. simpl. rewrite IH by intuition. f_equal. simpl. lia.
Qed.

(** The first occurrence of [sub], when none starts inside [p]. *)
Lemma find_from_first (sub p rest : str) (i : nat) :
  sub <> [] ->
  contains sub (p ++ removelast sub) = false ->
  find_from sub (p ++ sub ++ rest) i = Some (i + length p).
Proof.
  intros Hsub. unfold contains.
  revert i. induction p as [|c p IH]; intros i H; rewrite find_from_eq.
  - simpl. rewrite starts_with_app. f_equal. lia.
  - rewrite find_from_eq in H.
    destruct (starts_with sub ((c :: p) ++ removelast sub)) eqn:E;
      [discriminate|].
    assert (E' : starts_with sub ((c :: p) ++ sub ++ rest) = false).
    { rewrite (app_removelast_last NL Hsub) at 2.
      rewrite <- app_assoc, app_assoc.
      rewrite starts_with_app_l; [exact E|].
      rewrite length_app. simpl.
      rewrite (app_removelast_last NL Hsub) at 1.
      rewrite length_app. simpl. lia. }
    rewrite E'. change ((c :: p) ++ sub ++ rest) with (c :: (p ++ sub ++ rest)).
    cbv iota. rewrite IH.
    + f_equal. simpl. lia.
    + change ((c :: p) ++ removelast sub) with (c :: (p ++ removelast sub)) in H.
      cbv iota in H.
      destruct (find_from sub (p ++ removelast sub) 1) eqn:F; [discriminate|].
      now rewrite (find_from_None_shift _ _ _ 0 F).
Qed.

Lemma contains_false_index (sub s : str) :
  contains sub s = false -> str_index sub s 0 = Raise ValueError.
Proof.
  unfold contains, str_index. simpl.
  now destruct (find_from sub s 0).
Qed.

(** [s.index(sub, len(p))] looks at what follows [p]. *)
Lemma str_index_app (sub p s : str) :
  str_index sub (p ++ s) (length p) =
  match find_from sub s (length p) with
  | Some i => Ok i
  | None => Raise ValueError
  end.
Proof.
  unfold str_index. rewrite length_app.
  replace (length p <=? length p + length s) with true
    by (symmetry; apply Nat.leb_le; lia).
  rewrite skipn_app, skipn_all, Nat.sub_diag. reflexivity.
Qed.

Lemma slice_app (p u r : str) :
  slice (p ++ u ++ r) (length p) (length p + length u) = u.
Proof.
  unfold slice. rewrite skipn_app, skipn_all, Nat.sub_diag. simpl.
  replace (length p + length u - length p) with (length u + 0) by lia.
  rewrite firstn_app_2. simpl. apply app_nil_r.
Qed.

(** ** Splitting at a separator *)

Lemma split_nonempty (sep : char) (s : str) : split sep s <> [].
Proof.
  destruct s as [|c s]; simpl; [discriminate|].
  destruct (char_eqb c sep); [discriminate|].
  destruct (split sep s); discriminate.
Qed.

Lemma split_app (sep : char) (a b : str) :
  split sep (a ++ sep :: b) = split sep a ++ split sep b.
Proof.
  induction a as [|c a IH]; simpl.
  - now rewrite char_eqb_refl.
  - destruct (char_eqb c sep); [now rewrite IH|].
    rewrite IH. destruct (split sep a) eqn:E; [|reflexivity].
    now apply split_nonempty in E.
Qed.

Lemma split_none (sep : char) (t : str) : ~ In sep t -> split sep t = [t].
Proof.
  induction t as [|c t IH]; intros H; [reflexivity|].
  simpl in *.
  assert (E : char_eqb c sep = false) by (apply char_eqb_neq; intuition).
  rewrite E, IH by intuition. reflexivity.
Qed.

(** [parts[len(parts) - 1]] is the last element. *)
Lemma list_get_last {A} (l : list A) (d : A) :
  l <> [] -> list_get l (length l - 1) = Ok (last l d).
Proof.
  intros H. unfold list_get.
  rewrite (app_removelast_last d H) at 1 2.
  rewrite length_app. simpl.
  replace (length (removelast l) + 1 - 1) with (length (removelast l)) by lia.
  rewrite nth_error_app2, Nat.sub_diag by lia. reflexivity.
Qed.

(** The final path segment: what follows the last separator, or the whole
    string when there is none. *)
Lemma last_split_after (sep : char) (h t : str) :
  ~ In sep t -> last (split sep (h ++ sep :: t)) [] = t.
Proof.
  intros H. rewrite split_app, (split_none _ _ H). apply last_last.
Qed.

Lemma last_split_none (sep : char) (t : str) :
  ~ In sep t -> last (split sep t) [] = t.
Proof. intros H. now rewrite (split_none _ _ H). Qed.

(** ** Extraction *)

Lemma in_last_occurrence (c : char) (u : str) :
  In c u -> exists h t, u = h ++ c :: t /\ ~ In c t.
Proof.
  induction u as [|x u IH]; [intros []|].
  intros H. destruct (in_dec N.eq_dec c u) as [Hin | Hout].
  - destruct (IH Hin) as (h & t & -> & Ht). now exists (x :: h), t.
  - destruct H as [-> | H]; [|contradiction]. now exists [], u.
Qed.

Lemma final_segment_last (u : str) : final_segment u (last (split SLASH u) []).
Proof.
  destruct (in_dec N.eq_dec SLASH u) as [Hin | Hout].
  - destruct (in_last_occurrence _ _ Hin) as (h & t & -> & Ht).
    left. exists h. now rewrite last_split_after.
  - right. now rewrite last_split_none.
Qed.

(** The link line is read back: the URL between the quotes, and its last
    segment as identifier. *)
Lemma parse_link_href (line u : str) :
  href_holds line u ->
  parse_link line = Ok (mk_info (last (split SLASH u) []) u).
Proof.
  intros (p & q & r & -> & Hp & Hq & Hu). unfold parse_link.
  assert (E1 : str_index HREF (p ++ HREF ++ q ++ [DQ] ++ u ++ [DQ] ++ r) 0
               = Ok (length p)).
  { unfold str_index. cbn [Nat.leb skipn].
    rewrite find_from_first by (assumption || discriminate). reflexivity. }
  rewrite E1. cbn [rbind].
  assert (E2 : str_index [DQ] (p ++ HREF ++ q ++ [DQ] ++ u ++ [DQ] ++ r) (length p)
               = Ok (length p + length (HREF ++ q))).
  { rewrite str_index_app.
    replace (HREF ++ q ++ [DQ] ++ u ++ [DQ] ++ r)
      with ((HREF ++ q) ++ DQ :: (u ++ [DQ] ++ r))
      by (now rewrite <- app_assoc).
    rewrite find_from_char; [reflexivity|].
    intros H. apply in_app_or in H as [H | H]; [|contradiction].
    revert H. unfold HREF, DQ. simpl. intuition discriminate. }
  rewrite E2. cbn [rbind].
  set (pre := p ++ HREF ++ q ++ [DQ]).
  assert (Epre : length p + length (HREF ++ q) + 1 = length pre).
  { unfold pre. rewrite !length_app. simpl. lia. }
  assert (Eline : p ++ HREF ++ q ++ [DQ] ++ u ++ [DQ] ++ r = pre ++ u ++ DQ :: r).
  { unfold pre. now rewrite <- !app_assoc. }
  rewrite Epre, Eline.
  assert (E3 : str_index [DQ] (pre ++ u ++ DQ :: r) (length pre)
               = Ok (length pre + length u)).
  { rewrite str_index_app. now rewrite find_from_char. }
  rewrite E3. cbn [rbind].
  rewrite slice_app. cbv zeta.
  rewrite (@list_get_last str (split SLASH u) []) by apply split_nonempty.
  reflexivity.
Qed.

(** A line with a double quote is not the label line. *)
Lemma href_holds_not_label (line u : str) : href_holds line u -> line <> LABEL.
Proof.
  intros (p & q & r & -> & _) E.
  assert (H : In DQ LABEL).
  { rewrite <- E. apply in_or_app. right. apply in_or_app. right.
    apply in_or_app. right. now left. }
  revert H. unfold LABEL, DQ. simpl. intuition discriminate.
Qed.

(** Lines before the first label line are passed over. *)
Lemma parse_loop_skip (pre rest : list str) :
  ~ In LABEL pre -> parse_loop false (pre ++ rest) = parse_loop false rest.
Proof.
  induction pre as [|l pre IH]; intros H; [reflexivity|].
  simpl in *.
  assert (E : str_eqb l LABEL = false) by (apply str_eqb_neq; intuition).
  rewrite E. apply IH. intuition.
Qed.

Lemma parse_loop_absent (lines : list str) :
  ~ In LABEL lines -> parse_loop false lines = Ok None.
Proof.
  intros H. rewrite <- (app_nil_r lines). now rewrite parse_loop_skip.
Qed.

(** The line after the first label line decides the result. *)
Lemma parse_loop_at_label (pre post : list str) (line : str) :
  ~ In LABEL pre -> line <> LABEL ->
  parse_loop false (pre ++ LABEL :: line :: post) =
  rbind (parse_link line) (fun info => Ok (Some info)).
Proof.
  intros Hpre Hline. rewrite parse_loop_skip by assumption.
  simpl. apply str_eqb_neq in Hline. now rewrite Hline.
Qed.

Lemma parse_loop_found (pre post : list str) (line u : str) :
  ~ In LABEL pre -> href_holds line u ->
  parse_loop false (pre ++ LABEL :: line :: post) =
  Ok (Some (mk_info (last (split SLASH u) []) u)).
Proof.
  intros Hpre Hl.
  rewrite parse_loop_at_label by eauto using href_holds_not_label.
  now rewrite (parse_link_href _ _ Hl).
Qed.

(** C9 -- Absence: extraction of the empty string returns [None], and so
    does extraction of every body none of whose lines is the label line
    [<summary>Change Management</summary>]. *)
Theorem parse_absent (pr_body : str) :
  ~ In LABEL (splitlines pr_body) ->
  parse_cm_info_from_pr_body [] = Ok None /\
  parse_cm_info_from_pr_body pr_body = Ok None.
Proof.
  intros H. split; [reflexivity|]. now apply parse_loop_absent.
Qed.

Lemma parse_absent_witness :
  parse_cm_info_from_pr_body [] = Ok None /\
  parse_cm_info_from_pr_body (str_of "Fix the parser" ++ [NL] ++ str_of "Details follow")
  = Ok None.
Proof.
  apply (parse_absent (str_of "Fix the parser" ++ [NL] ++ str_of "Details follow")).
  not_in_lines.
Defined.

(** C4, as stated, fails: with the label line followed by a line without
    [href], extraction raises [ValueError] instead of returning [None]. *)
Lemma parse_malformed_counterexample :
  parse_cm_info_from_pr_body malformed_body = Raise ValueError.
Proof. reflexivity. Qed.

(** C4, amended -- A missing block is taken as absent: for every body
    without a label line, and every body whose first label line is its last
    line, extraction returns [None].  A block whose label line is followed
    by a line without [href] is not: extraction raises [ValueError]. *)
Theorem parse_malformed (pr_body : str) (pre : list str) :
  ~ In LABEL pre ->
  (splitlines pr_body = pre ->
   parse_cm_info_from_pr_body pr_body = Ok None) /\
  (splitlines pr_body = pre ++ [LABEL] ->
   parse_cm_info_from_pr_body pr_body = Ok None) /\
  (forall line post,
     splitlines pr_body = pre ++ LABEL :: line :: post ->
     line <> LABEL ->
     contains HREF line = false ->
     parse_cm_info_from_pr_body pr_body = Raise ValueError).
Proof.
  intros Hpre. unfold parse_cm_info_from_pr_body. split; [|split].
  - intros ->. now apply parse_loop_absent.
  - intros ->. rewrite parse_loop_skip by assumption.
    cbn [parse_loop]. now rewrite str_eqb_refl.
  - intros line post -> Hline Hhref.
    rewrite parse_loop_at_label by assumption.
    unfold parse_link. now rewrite contains_false_index.
Qed.

Lemma parse_malformed_witness :
  parse_cm_info_from_pr_body (str_of "Title") = Ok None /\
  parse_cm_info_from_pr_body (str_of "Title" ++ [NL] ++ LABEL) = Ok None /\
  parse_cm_info_from_pr_body (str_of "Title" ++ [NL] ++ malformed_body)
  = Raise ValueError.
Proof.
  split; [|split].
  - apply (proj1 (parse_malformed (str_of "Title")
                                  [str_of "Title"] ltac:(not_in_lines))).
    reflexivity.
  - apply (proj1 (proj2 (parse_malformed (str_of "Title" ++ [NL] ++ LABEL)
                                         [str_of "Title"] ltac:(not_in_lines)))).
    reflexivity.
  - apply (proj2 (proj2 (parse_malformed (str_of "Title" ++ [NL] ++ malformed_body)
                                         [str_of "Title"] ltac:(not_in_lines)))
                 (str_of "no link here") []).
    + reflexivity.
    + discriminate.
    + reflexivity.
Defined.

(** C6, as stated, fails.  A body can hold the label line directly followed
    by a link line whose href holds the URL and still give something else:
    after a stray label line, extraction reads the line that follows that
    one and raises [ValueError]; and when the text [href] occurs in the link
    line before the href attribute, the first quoted text after that
    occurrence is taken as the URL. *)
Lemma parse_derives_identifier_counterexample :
  splitlines stray_label_body
  = [LABEL; str_of "see below"; DETAILS_OPEN; LABEL; link_line url_123;
     DETAILS_CLOSE] /\
  parse_cm_info_from_pr_body stray_label_body = Raise ValueError /\
  splitlines title_href_body = [LABEL; title_href_line] /\
  parse_cm_info_from_pr_body title_href_body
  = Ok (Some (mk_info (str_of " href=") (str_of " href="))).
Proof. repeat split. Qed.

(** C6, amended -- Identifier derivation: when the first label line of the
    body is directly followed by a link line in which the first occurrence
    of [href] is followed, after text without double quote, by the URL [u]
    between double quotes, [u] having no double quote, extraction returns
    the dictionary whose [task_url] is [u] and whose [task_gid] is the final
    path segment of [u]: what follows the last [/] of [u], or [u] itself
    when it has none. *)
Theorem parse_derives_identifier
        (pr_body : str) (pre post : list str) (line u : str) :
  splitlines pr_body = pre ++ LABEL :: line :: post ->
  ~ In LABEL pre ->
  href_holds line u ->
  exists gid,
    parse_cm_info_from_pr_body pr_body = Ok (Some (mk_info gid u)) /\
    final_segment u gid.
Proof.
  intros E Hpre Hline. exists (last (split SLASH u) []). split.
  - unfold parse_cm_info_from_pr_body. rewrite E. now apply parse_loop_found.
  - apply final_segment_last.
Qed.

Lemma link_line_href_holds (u : str) : ~ In DQ u -> href_holds (link_line u) u.
Proof.
  intros Hu. exists (str_of "<a "), (str_of "="), A_TEXT.
  split; [reflexivity|]. split; [reflexivity|]. split; [|assumption].
  unfold DQ. not_in_lines.
Qed.

Lemma parse_derives_identifier_witness :
  exists gid,
    parse_cm_info_from_pr_body
      (str_of "Intro" ++ [NL] ++ LABEL ++ [NL] ++ link_line url_123 ++ [NL]
       ++ str_of "Outro")
    = Ok (Some (mk_info gid url_123)) /\
    final_segment url_123 gid.
Proof.
  apply (parse_derives_identifier
           (str_of "Intro" ++ [NL] ++ LABEL ++ [NL] ++ link_line url_123 ++ [NL]
            ++ str_of "Outro")
           [str_of "Intro"] [str_of "Outro"] (link_line url_123) url_123).
  - reflexivity.
  - not_in_lines.
  - apply link_line_href_holds. unfold url_123, DQ. not_in_lines.
Defined.

(** ** Insertion followed by extraction *)

Lemma one_line_app (a b : str) : one_line a -> one_line b -> one_line (a ++ b).
Proof. intros Ha Hb. apply Forall_app. now split. Qed.

Lemma one_line_link_line (url : str) : one_line url -> one_line (link_line url).
Proof.
  intros H. unfold link_line.
  repeat apply one_line_app; try assumption; repeat constructor.
Qed.

(** The lines of a body with the block appended: the lines of the body ended
    by a line feed, an empty line, and the four lines of the block. *)
Lemma splitlines_add (pr_body url : str) :
  one_line url ->
  splitlines (add_cm_details_to_pr_body pr_body url) =
  splitlines (pr_body ++ [NL]) ++
  [[]; DETAILS_OPEN; LABEL; link_line url; DETAILS_CLOSE].
Proof.
  intros Hurl. unfold add_cm_details_to_pr_body.
  change (pr_body ++ [NL] ++ [NL] ++ DETAILS_OPEN ++ [NL] ++ LABEL ++ [NL] ++
          link_line url ++ [NL] ++ DETAILS_CLOSE ++ [NL])
    with (pr_body ++ NL :: NL :: (DETAILS_OPEN ++ NL :: (LABEL ++ NL ::
          (link_line url ++ NL :: (DETAILS_CLOSE ++ NL :: []))))).
  rewrite splitlines_app_NL, splitlines_NL.
  rewrite (splitlines_line DETAILS_OPEN) by repeat constructor.
  rewrite (splitlines_line LABEL) by repeat constructor.
  rewrite (splitlines_line (link_line url)) by now apply one_line_link_line.
  rewrite (splitlines_line DETAILS_CLOSE) by repeat constructor.
  reflexivity.
Qed.

Lemma no_label_snoc_NL (pr_body : str) :
  ~ In LABEL (splitlines pr_body) -> ~ In LABEL (splitlines (pr_body ++ [NL])).
Proof.
  intros H. destruct (splitlines_snoc_NL pr_body) as [-> | ->]; [assumption|].
  intros Hin. apply in_app_or in Hin as [Hin | [Hin | []]];
    [contradiction | discriminate].
Qed.

(** C1, as stated, fails.  A URL with a double quote is cut at the quote; a
    URL with a line feed is cut into two lines, and a body that ends with a
    label line has the empty line after it read as the link line: in both
    cases extraction raises. *)
Lemma round_trip_counterexample :
  parse_cm_info_from_pr_body (add_cm_details_to_pr_body [] url_with_quote)
  = Ok (Some (mk_info (str_of "a") (str_of "a"))) /\
  str_of "a" <> url_with_quote /\
  parse_cm_info_from_pr_body (add_cm_details_to_pr_body [] url_with_NL)
  = Raise ValueError /\
  parse_cm_info_from_pr_body (add_cm_details_to_pr_body LABEL url_123)
  = Raise ValueError.
Proof. repeat split. discriminate. Qed.

(** C1, amended -- Round trip: for every body none of whose lines is the
    label line, and every task URL without double quote and without
    line-break character, extraction of the body with the block appended
    returns a dictionary whose [task_url] is that URL. *)
Theorem round_trip (pr_body url : str) :
  ~ In LABEL (splitlines pr_body) ->
  ~ In DQ url ->
  one_line url ->
  exists info,
    parse_cm_info_from_pr_body (add_cm_details_to_pr_body pr_body url)
    = Ok (Some info) /\
    task_url info = url.
Proof.
  intros Hbody Hq Hnl.
  exists (mk_info (last (split SLASH url) []) url). split; [|reflexivity].
  unfold parse_cm_info_from_pr_body. rewrite splitlines_add by assumption.
  change [[]; DETAILS_OPEN; LABEL; link_line url; DETAILS_CLOSE]
    with ([[]; DETAILS_OPEN] ++ LABEL :: link_line url :: [DETAILS_CLOSE]).
  rewrite app_assoc. apply parse_loop_found.
  - intros Hin. apply in_app_or in Hin as [Hin | Hin].
    + now apply no_label_snoc_NL in Hin.
    + revert Hin. not_in_lines.
  - now apply link_line_href_holds.
Qed.

Lemma round_trip_witness :
  exists info,
    parse_cm_info_from_pr_body
      (add_cm_details_to_pr_body (str_of "Fix the parser") url_123)
    = Ok (Some info) /\
    task_url info = url_123.
Proof.
  apply (round_trip (str_of "Fix the parser") url_123).
  - not_in_lines.
  - unfold url_123, DQ. not_in_lines.
  - unfold url_123. repeat constructor.
Defined.

(** C5, as stated, fails: whatever the text of the link, the body computed
    for the empty body is not the one of the specification, which has one
    line feed before [<details>] where the script writes two. *)
Lemma scenario_1_counterexample :
  ~ exists link_text,
      add_cm_details_to_pr_body [] url_123
      = scenario_1_head ++ link_text ++ scenario_1_tail.
Proof. intros [t H]. discriminate H. Qed.

(** C5, amended -- For the empty body and the task URL
    [https://service/0/tasks/123], insertion produces two line feeds, the
    opening delimiter, the label line, the link line with the text
    [Asana task], the closing delimiter and a last line feed; extraction
    from that body returns the URL and the identifier [123]; and on an
    [opened] event with the empty body, the fourth request of the run sends
    that body to GitHub. *)
Theorem scenario_1 :
  add_cm_details_to_pr_body [] url_123 = scenario_1_body /\
  parse_cm_info_from_pr_body scenario_1_body
  = Ok (Some (mk_info (str_of "123") url_123)) /\
  nth_error
    (calls (snd (main (fun _ _ => mk_response 200 [])
                      (fun _ => Some task_123) None None py_str_0
                      opened_args empty_payload world0)))
    3
  = Some (github_request None (str_of "/repos/nrfta/go-paging/pulls/7")
            (Some (JObj [(str_of "body", JStr scenario_1_body)])) POST).
Proof. repeat split. Qed.

(** ** Removal *)

(** What the loop has written so far stays in front of what it writes next,
    and has no influence on the two flags. *)
Lemma strip_step_acc (acc : str) (i t : bool) (line : str) :
  strip_step (mk_strip acc i t) line =
  mk_strip (acc ++ new_body (strip_step (mk_strip [] i t) line))
           (in_cm (strip_step (mk_strip [] i t) line))
           (test_in_cm (strip_step (mk_strip [] i t) line)).
Proof.
  unfold strip_step. cbn [new_body in_cm test_in_cm].
  destruct t, i, (str_eqb line DETAILS_OPEN), (str_eqb line LABEL),
    (str_eqb line DETAILS_CLOSE);
    cbn [new_body in_cm test_in_cm negb andb app];
    rewrite ?app_nil_r, <- ?app_assoc; reflexivity.
Qed.

Lemma strip_loop_cons (st : strip_state) (line : str) (lines : list str) :
  strip_loop st (line :: lines) = strip_loop (strip_step st line) lines.
Proof. reflexivity. Qed.

Lemma strip_loop_acc (lines : list str) (acc : str) (i t : bool) :
  strip_loop (mk_strip acc i t) lines =
  mk_strip (acc ++ new_body (strip_loop (mk_strip [] i t) lines))
           (in_cm (strip_loop (mk_strip [] i t) lines))
           (test_in_cm (strip_loop (mk_strip [] i t) lines)).
Proof.
  revert acc i t. induction lines as [|line lines IH]; intros acc i t.
  - cbn. now rewrite app_nil_r.
  - rewrite !strip_loop_cons, strip_step_acc.
    destruct (strip_step (mk_strip [] i t) line) as [d i' t'].
    cbn [new_body in_cm test_in_cm].
    rewrite (IH (acc ++ d)), (IH d). cbn [new_body in_cm test_in_cm].
    now rewrite app_assoc.
Qed.

(** Whatever one pass of the loop writes begins with a line feed. *)
Lemma strip_step_headed (i t : bool) (line : str) :
  new_body (strip_step (mk_strip [] i t) line) = [] \/
  starts_with_NL (new_body (strip_step (mk_strip [] i t) line)).
Proof.
  unfold strip_step, starts_with_NL. cbn [new_body in_cm test_in_cm].
  destruct t, i, (str_eqb line DETAILS_OPEN), (str_eqb line LABEL),
    (str_eqb line DETAILS_CLOSE);
    cbn [new_body in_cm test_in_cm negb andb app]; eauto.
Qed.

Lemma strip_loop_headed (lines : list str) (i t : bool) :
  new_body (strip_loop (mk_strip [] i t) lines) = [] \/
  starts_with_NL (new_body (strip_loop (mk_strip [] i t) lines)).
Proof.
  revert i t. induction lines as [|line lines IH]; intros i t; [now left|].
  rewrite strip_loop_cons.
  destruct (strip_step_headed i t line) as [E | [d E]];
    destruct (strip_step (mk_strip [] i t) line) as [d0 i' t'];
    cbn [new_body] in E; subst d0.
  - apply IH.
  - right. rewrite (strip_loop_acc lines (NL :: d) i' t'). cbn [new_body].
    now eexists.
Qed.

(** The result of removal is empty or begins with a line feed. *)
Lemma strip_headed (pr_body : str) :
  remove_cm_details_from_pr_body pr_body = [] \/
  starts_with_NL (remove_cm_details_from_pr_body pr_body).
Proof. apply strip_loop_headed. Qed.

(** A first line other than the opening delimiter is written at once. *)
Lemma strip_first_line (pr_body l : str) (ls : list str) :
  splitlines pr_body = l :: ls ->
  l <> DETAILS_OPEN ->
  remove_cm_details_from_pr_body pr_body =
  NL :: l ++ new_body (strip_loop strip_init ls).
Proof.
  intros E Hl. unfold remove_cm_details_from_pr_body. rewrite E.
  rewrite strip_loop_cons.
  assert (S1 : strip_step strip_init l = mk_strip (NL :: l) false false).
  { unfold strip_step, strip_init. cbn [new_body in_cm test_in_cm negb andb].
    apply str_eqb_neq in Hl. now rewrite Hl. }
  rewrite S1, strip_loop_acc. reflexivity.
Qed.

(** A leading line feed is an empty first line, and is copied. *)
Lemma strip_NL_cons (r : str) :
  remove_cm_details_from_pr_body (NL :: r) =
  NL :: remove_cm_details_from_pr_body r.
Proof.
  rewrite (strip_first_line (NL :: r) [] (splitlines r)); [reflexivity| |].
  - apply splitlines_NL.
  - discriminate.
Qed.

(** The bodies that removal returns unchanged are the strings of line
    feeds. *)
Lemma strip_fixed_point (pr_body : str) :
  remove_cm_details_from_pr_body pr_body = pr_body <-> only_NL pr_body.
Proof.
  induction pr_body as [|c r IH]; split.
  - constructor.
  - reflexivity.
  - intros H. destruct (strip_headed (c :: r)) as [E | [t E]];
      rewrite H in E; [discriminate|].
    injection E as -> ->. constructor; [reflexivity|].
    apply IH. rewrite strip_NL_cons in H. now injection H.
  - intros H. inversion H as [|? ? Hc Hr]; subst.
    rewrite strip_NL_cons. f_equal. now apply IH.
Qed.

(** Once [test_in_cm] is set and the line is not the label line, the flag
    stays set: the line is written after an additional [<details>]. *)
Lemma strip_step_flag_stays (acc line : str) :
  line <> LABEL ->
  strip_step (mk_strip acc false true) line =
  mk_strip (acc ++ [NL] ++ DETAILS_OPEN ++ [NL] ++ line) false true.
Proof.
  intros H. apply str_eqb_neq in H.
  unfold strip_step. cbn [new_body in_cm test_in_cm negb andb].
  rewrite H. cbn [new_body in_cm test_in_cm negb andb].
  now rewrite <- !app_assoc.
Qed.

(** So every line of an unrelated block, and every line after it up to the
    next label line, comes out with a [<details>] line before it. *)
Lemma strip_loop_flag_stays (lines : list str) (acc : str) :
  ~ In LABEL lines ->
  strip_loop (mk_strip acc false true) lines =
  mk_strip
    (acc ++ concat (map (fun l => [NL] ++ DETAILS_OPEN ++ [NL] ++ l) lines))
    false true.
Proof.
  revert acc. induction lines as [|l lines IH]; intros acc H.
  - cbn. now rewrite app_nil_r.
  - rewrite strip_loop_cons, strip_step_flag_stays by (simpl in H; intuition).
    rewrite IH by (simpl in H; intuition).
    cbn [map concat]. now rewrite <- !app_assoc.
Qed.

(** C2 -- Non-interference, on a body with an unrelated block
    ([<details>], [<summary>Notes</summary>], [some notes], [</details>])
    before the block of the script.  The flag [test_in_cm] stays set after
    the line that follows the first [<details>], so the result has an
    additional [<details>] line before [some notes] and before
    [</details>], and ends with two [<details>] lines in place of the
    removed block: the unrelated block does not come out unchanged. *)
Theorem strip_two_blocks :
  remove_cm_details_from_pr_body body_two_blocks = stripped_two_blocks.
Proof. reflexivity. Qed.

(** C3, as stated, fails: on the body [a] the first removal gives a line feed
    and [a], the second one two line feeds and [a]. *)
Lemma strip_idempotent_counterexample :
  remove_cm_details_from_pr_body (str_of "a") = [NL; 97%N] /\
  remove_cm_details_from_pr_body (remove_cm_details_from_pr_body (str_of "a"))
  = [NL; NL; 97%N] /\
  remove_cm_details_from_pr_body (remove_cm_details_from_pr_body (str_of "a"))
  <> remove_cm_details_from_pr_body (str_of "a").
Proof. repeat split. discriminate. Qed.

(** C3, amended -- Removing twice gives the same as removing once exactly
    when the body after one removal is empty or made of line feeds only. *)
Theorem strip_idempotent_iff (pr_body : str) :
  remove_cm_details_from_pr_body (remove_cm_details_from_pr_body pr_body)
  = remove_cm_details_from_pr_body pr_body
  <-> only_NL (remove_cm_details_from_pr_body pr_body).
Proof. apply strip_fixed_point. Qed.

(** C10, as stated, fails: the body [<details>] is not empty and removal
    returns the empty string; the body made of one line feed is not empty,
    has no block, and removal returns it unchanged. *)
Lemma strip_leading_newline_counterexample :
  DETAILS_OPEN <> [] /\
  ~ starts_with_NL (remove_cm_details_from_pr_body DETAILS_OPEN) /\
  [NL] <> [] /\
  remove_cm_details_from_pr_body [NL] = [NL].
Proof.
  repeat split; try discriminate.
  intros [t H]. discriminate H.
Qed.

(** C10, amended -- For every body whose first line is not the opening
    delimiter [<details>], removal returns a string that begins with a line
    feed; for every body the result is empty or begins with a line feed; and
    removal returns a body unchanged exactly when the body is made of line
    feeds only. *)
Theorem strip_leading_newline (pr_body l : str) (ls : list str) :
  splitlines pr_body = l :: ls ->
  l <> DETAILS_OPEN ->
  starts_with_NL (remove_cm_details_from_pr_body pr_body) /\
  (forall b,
     remove_cm_details_from_pr_body b = [] \/
     starts_with_NL (remove_cm_details_from_pr_body b)) /\
  (forall b, remove_cm_details_from_pr_body b = b <-> only_NL b).
Proof.
  intros E Hl. split; [|split].
  - rewrite (strip_first_line pr_body l ls E Hl). now eexists.
  - apply strip_headed.
  - apply strip_fixed_point.
Qed.

Lemma strip_leading_newline_witness :
  starts_with_NL (remove_cm_details_from_pr_body (str_of "Fix the parser")).
Proof.
  apply (strip_leading_newline (str_of "Fix the parser")
                               (str_of "Fix the parser") []).
  - reflexivity.
  - discriminate.
Defined.

(** ** The remote clients *)

Section Clients.

Variable remote : list request -> request -> response.
Variable json_loads : str -> option json.
Variable ASANA_API_TOKEN GITHUB_TOKEN : option str.

Lemma post_to_asana_eq (uri : str) (data : option json) (method : str) (w : world) :
  post_to_asana remote json_loads ASANA_API_TOKEN uri data method w =
  let req := asana_request ASANA_API_TOKEN uri data method in
  let res := remote (calls w) req in
  let w' := mk_world (calls w ++ [req]) (stdout w) in
  if (status_code res >? 299)%Z then (Raise (Exception (text res)), w')
  else match json_loads (text res) with
       | Some j => (Ok j, w')
       | None => (Raise JSONDecodeError, w')
       end.
Proof.
  unfold post_to_asana, bind, requests_request, res_json, raise, ret.
  cbv zeta.
  destruct (status_code _ >? 299)%Z; [reflexivity|].
  now destruct (json_loads _).
Qed.

Lemma post_to_github_eq (uri : str) (data : option json) (method : str) (w : world) :
  post_to_github remote json_loads GITHUB_TOKEN uri data method w =
  let req := github_request GITHUB_TOKEN uri data method in
  let res := remote (calls w) req in
  let w' := mk_world (calls w ++ [req]) (stdout w) in
  if (status_code res >? 299)%Z then (Raise (Exception (text res)), w')
  else match json_loads (text res) with
       | Some j => (Ok j, w')
       | None => (Raise JSONDecodeError, w')
       end.
Proof.
  unfold post_to_github, bind, requests_request, res_json, raise, ret.
  cbv zeta.
  destruct (status_code _ >? 299)%Z; [reflexivity|].
  now destruct (json_loads _).
Qed.

(** Whatever the answer, [post_to_asana] sends one request. *)
Lemma post_to_asana_calls (uri : str) (data : option json) (method : str) (w : world) :
  calls (snd (post_to_asana remote json_loads ASANA_API_TOKEN uri data method w))
  = calls w ++ [asana_request ASANA_API_TOKEN uri data method].
Proof.
  rewrite post_to_asana_eq. cbv zeta.
  destruct (status_code _ >? 299)%Z; [reflexivity|].
  now destruct (json_loads _).
Qed.

End Clients.

(** C8, as stated, fails.  A status code below 200 is no success code, and
    the client returns the parsed body without raising; a 204 answer has a
    success code and an empty body, and the client raises the error of the
    JSON decoder. *)
Lemma remote_error_contract_counterexample :
  fst (post_to_asana (fun _ _ => mk_response 101 (str_of "{}"))
                     (fun _ => Some (JObj [])) None
                     (str_of "/tasks") None POST world0)
  = Ok (JObj []) /\
  fst (post_to_github (fun _ _ => mk_response 204 [])
                      (fun _ => None) None
                      (str_of "/repos/o/r/pulls/1") None POST world0)
  = Raise JSONDecodeError.
Proof. split; reflexivity. Qed.

(** C8, amended -- Remote error contract: for every response whose status
    code is above 299, [post_to_asana] and [post_to_github] raise an
    exception whose message is the raw response body; for every response
    whose status code is at most 299 they return the parsed JSON when the
    body is valid JSON, and raise the decoder's error when it is not. *)
Theorem remote_error_contract
        (remote : list request -> request -> response)
        (json_loads : str -> option json)
        (ASANA_API_TOKEN GITHUB_TOKEN : option str)
        (uri : str) (data : option json) (method : str) (w : world)
        (res_a res_g : response) :
  remote (calls w) (asana_request ASANA_API_TOKEN uri data method) = res_a ->
  remote (calls w) (github_request GITHUB_TOKEN uri data method) = res_g ->
  ((status_code res_a > 299)%Z ->
   fst (post_to_asana remote json_loads ASANA_API_TOKEN uri data method w)
   = Raise (Exception (text res_a))) /\
  ((status_code res_a <= 299)%Z ->
   fst (post_to_asana remote json_loads ASANA_API_TOKEN uri data method w)
   = match json_loads (text res_a) with
     | Some j => Ok j
     | None => Raise JSONDecodeError
     end) /\
  ((status_code res_g > 299)%Z ->
   fst (post_to_github remote json_loads GITHUB_TOKEN uri data method w)
   = Raise (Exception (text res_g))) /\
  ((status_code res_g <= 299)%Z ->
   fst (post_to_github remote json_loads GITHUB_TOKEN uri data method w)
   = match json_loads (text res_g) with
     | Some j => Ok j
     | None => Raise JSONDecodeError
     end).
Proof.
  intros Ea Eg. rewrite post_to_asana_eq, post_to_github_eq. cbv zeta.
  rewrite Ea, Eg.
  repeat split; intros H.
  - apply Z.gtb_gt in H. now rewrite H.
  - replace (status_code res_a >? 299)%Z with false
      by (symmetry; rewrite Z.gtb_ltb; apply Z.ltb_ge; assumption).
    now destruct (json_loads (text res_a)).
  - apply Z.gtb_gt in H. now rewrite H.
  - replace (status_code res_g >? 299)%Z with false
      by (symmetry; rewrite Z.gtb_ltb; apply Z.ltb_ge; assumption).
    now destruct (json_loads (text res_g)).
Qed.

Lemma remote_error_contract_witness :
  fst (post_to_asana
         (fun _ r => match req_host r with
                     | Asana => mk_response 404 (str_of "Not Found")
                     | Github => mk_response 200 (str_of "{}")
                     end)
         (fun _ => Some (JObj [])) None (str_of "/tasks") None POST world0)
  = Raise (Exception (str_of "Not Found")) /\
  fst (post_to_github
         (fun _ r => match req_host r with
                     | Asana => mk_response 404 (str_of "Not Found")
                     | Github => mk_response 200 (str_of "{}")
                     end)
         (fun _ => Some (JObj [])) None (str_of "/tasks") None POST world0)
  = Ok (JObj []).
Proof.
  pose proof
    (remote_error_contract
       (fun _ r => match req_host r with
                   | Asana => mk_response 404 (str_of "Not Found")
                   | Github => mk_response 200 (str_of "{}")
                   end)
       (fun _ => Some (JObj [])) None None (str_of "/tasks") None POST world0
       (mk_response 404 (str_of "Not Found")) (mk_response 200 (str_of "{}"))
       eq_refl eq_refl) as (Ha & _ & _ & Hg).
  split.
  - apply Ha. reflexivity.
  - apply Hg. discriminate.
Defined.

(** ** The event router *)

(** [args.repo.split("/")[1]] for a repository in [org/repo] form. *)
Lemma repo_name_of_org_repo (args : Args) (org name : str) (w : world) :
  repo args = org ++ SLASH :: name ->
  ~ In SLASH org -> ~ In SLASH name ->
  repo_name_of args w = (Ok name, w).
Proof.
  intros E Ho Hn. unfold repo_name_of, lift.
  rewrite E, split_app, (split_none _ _ Ho), (split_none _ _ Hn). reflexivity.
Qed.




(** ** The requests that the clients build *)

(** [post_to_asana] addresses the tracking service under its base URL, with
    the method, the URI and the JSON it is given, and the bearer token. *)
Lemma asana_request_fields
      (ASANA_API_TOKEN : option str) (uri : str) (data : option json)
      (method : str) :
  asana_request ASANA_API_TOKEN uri data method =
  mk_request Asana method (str_of "https://app.asana.com/api/1.0" ++ uri) data
    [(str_of "Authorization", str_of "Bearer " ++ fmt_env ASANA_API_TOKEN);
     (str_of "Content-Type", str_of "application/json");
     (str_of "Accept", str_of "application/json")].
Proof. reflexivity. Qed.

(** [post_to_github] does the same for GitHub. *)
Lemma github_request_fields
      (GITHUB_TOKEN : option str) (uri : str) (data : option json)
      (method : str) :
  github_request GITHUB_TOKEN uri data method =
  mk_request Github method (str_of "https://api.github.com" ++ uri) data
    [(str_of "Accept", str_of "application/vnd.github+json");
     (str_of "Authorization", str_of "Bearer " ++ fmt_env GITHUB_TOKEN)].
Proof. reflexivity. Qed.

(** * Further properties of the script *)

(** ** Removal, continued *)

Lemma join_lines_app (a b : list str) :
  join_lines (a ++ b) = join_lines a ++ join_lines b.
Proof. unfold join_lines. now rewrite map_app, concat_app. Qed.

(** Outside a block, a line other than [<details>] is copied. *)
Lemma strip_step_plain (acc line : str) :
  line <> DETAILS_OPEN ->
  strip_step (mk_strip acc false false) line =
  mk_strip (acc ++ NL :: line) false false.
Proof.
  intros H. apply str_eqb_neq in H.
  unfold strip_step. cbn [new_body in_cm test_in_cm negb andb].
  now rewrite H.
Qed.

Lemma strip_loop_plain (lines : list str) (acc : str) :
  ~ In DETAILS_OPEN lines ->
  strip_loop (mk_strip acc false false) lines =
  mk_strip (acc ++ join_lines lines) false false.
Proof.
  revert acc. induction lines as [|l lines IH]; intros acc H.
  - cbn. now rewrite app_nil_r.
  - rewrite strip_loop_cons, strip_step_plain by (simpl in H; intuition).
    rewrite IH by (simpl in H; intuition).
    unfold join_lines. cbn [map concat]. now rewrite <- app_assoc.
Qed.

(** Inside the block, a line other than the two delimiters is dropped. *)
Lemma strip_step_inside (acc line : str) :
  line <> DETAILS_OPEN -> line <> DETAILS_CLOSE ->
  strip_step (mk_strip acc true false) line = mk_strip acc true false.
Proof.
  intros Ho Hc. apply str_eqb_neq in Ho, Hc.
  unfold strip_step. cbn [new_body in_cm test_in_cm negb andb].
  rewrite Ho. cbn [new_body in_cm test_in_cm negb andb]. now rewrite Hc.
Qed.

Lemma strip_loop_inside (lines : list str) (acc : str) :
  ~ In DETAILS_OPEN lines -> ~ In DETAILS_CLOSE lines ->
  strip_loop (mk_strip acc true false) lines = mk_strip acc true false.
Proof.
  induction lines as [|l lines IH]; intros Ho Hc; [reflexivity|].
  rewrite strip_loop_cons, strip_step_inside by (simpl in *; intuition).
  apply IH; simpl in *; intuition.
Qed.

Lemma strip_loop_app (st : strip_state) (a b : list str) :
  strip_loop st (a ++ b) = strip_loop (strip_loop st a) b.
Proof. apply fold_left_app. Qed.

(** The lines of a body with one block and no other [<details>] line. *)
Lemma strip_loop_block (pre inner post : list str) :
  ~ In DETAILS_OPEN pre ->
  ~ In DETAILS_OPEN inner -> ~ In DETAILS_CLOSE inner ->
  ~ In DETAILS_OPEN post ->
  strip_loop strip_init
    (pre ++ DETAILS_OPEN :: LABEL :: inner ++ DETAILS_CLOSE :: post)
  = mk_strip (join_lines (pre ++ post)) false false.
Proof.
  intros Hpre Hio Hic Hpost.
  unfold strip_init. rewrite strip_loop_app, strip_loop_plain by assumption.
  rewrite !strip_loop_cons.
  change (strip_step (mk_strip ([] ++ join_lines pre) false false) DETAILS_OPEN)
    with (mk_strip ([] ++ join_lines pre) false true).
  change (strip_step (mk_strip ([] ++ join_lines pre) false true) LABEL)
    with (mk_strip ([] ++ join_lines pre) true false).
  rewrite strip_loop_app, strip_loop_inside by assumption.
  rewrite strip_loop_cons.
  change (strip_step (mk_strip ([] ++ join_lines pre) true false) DETAILS_CLOSE)
    with (mk_strip ([] ++ join_lines pre) false false).
  rewrite strip_loop_plain by assumption.
  now rewrite join_lines_app.
Qed.

(** X1 -- A body without any [<details>] line loses nothing: removal returns
    every line of the body, each after a line feed. *)
Theorem strip_without_details (pr_body : str) :
  ~ In DETAILS_OPEN (splitlines pr_body) ->
  remove_cm_details_from_pr_body pr_body = join_lines (splitlines pr_body).
Proof.
  intros H. unfold remove_cm_details_from_pr_body, strip_init.
  now rewrite strip_loop_plain.
Qed.

Lemma strip_without_details_witness :
  remove_cm_details_from_pr_body (str_of "one" ++ [CR; NL] ++ str_of "two")
  = join_lines (splitlines (str_of "one" ++ [CR; NL] ++ str_of "two")).
Proof.
  apply (strip_without_details (str_of "one" ++ [CR; NL] ++ str_of "two")).
  not_in_lines.
Defined.

(** X2 -- A body whose only [<details>] line opens the block of the script
    (the label line directly after it, no [<details>] or [</details>] line
    before the closing delimiter) comes out without the block: removal
    returns the lines before and after it, each after a line feed. *)
Theorem strip_removes_block
        (pr_body : str) (pre inner post : list str) :
  splitlines pr_body =
    pre ++ DETAILS_OPEN :: LABEL :: inner ++ DETAILS_CLOSE :: post ->
  ~ In DETAILS_OPEN pre ->
  ~ In DETAILS_OPEN inner ->
  ~ In DETAILS_CLOSE inner ->
  ~ In DETAILS_OPEN post ->
  remove_cm_details_from_pr_body pr_body = join_lines (pre ++ post).
Proof.
  intros E Hpre Hio Hic Hpost. unfold remove_cm_details_from_pr_body.
  rewrite E, strip_loop_block by assumption. reflexivity.
Qed.

Lemma strip_removes_block_witness :
  remove_cm_details_from_pr_body
    (str_of "Intro" ++ [NL] ++ DETAILS_OPEN ++ [NL] ++ LABEL ++ [NL] ++
     link_line url_123 ++ [NL] ++ DETAILS_CLOSE ++ [NL] ++ str_of "Outro")
  = join_lines ([str_of "Intro"] ++ [str_of "Outro"]).
Proof.
  apply (strip_removes_block
           (str_of "Intro" ++ [NL] ++ DETAILS_OPEN ++ [NL] ++ LABEL ++ [NL] ++
            link_line url_123 ++ [NL] ++ DETAILS_CLOSE ++ [NL] ++ str_of "Outro")
           [str_of "Intro"] [link_line url_123] [str_of "Outro"]).
  - reflexivity.
  - not_in_lines.
  - not_in_lines.
  - not_in_lines.
  - not_in_lines.
Defined.

(** The lines of a string ended by one more line feed. *)
Lemma splitlines_snoc_NL_In (a l : str) :
  In l (splitlines (a ++ [NL])) -> l = [] \/ In l (splitlines a).
Proof.
  destruct (splitlines_snoc_NL a) as [-> | ->]; [now right|].
  intros H. apply in_app_or in H as [H | [<- | []]]; auto.
Qed.

Lemma not_in_snoc_NL (a l : str) :
  l <> [] -> ~ In l (splitlines a) -> ~ In l (splitlines (a ++ [NL])).
Proof.
  intros Hl H Hin. apply splitlines_snoc_NL_In in Hin as [-> | Hin]; auto.
Qed.

(** X3 -- Removal undoes insertion up to line breaks: for a body without any
    [<details>] line and a URL without line-break character, removing the
    block from the body with the block appended returns the lines of the
    body ended by a line feed, each after a line feed, and one line feed for
    the empty line that insertion puts before the block. *)
Theorem strip_after_add (pr_body url : str) :
  ~ In DETAILS_OPEN (splitlines pr_body) ->
  one_line url ->
  remove_cm_details_from_pr_body (add_cm_details_to_pr_body pr_body url)
  = join_lines (splitlines (pr_body ++ [NL])) ++ [NL].
Proof.
  intros Hbody Hurl. unfold remove_cm_details_from_pr_body.
  rewrite splitlines_add by assumption.
  change [[]; DETAILS_OPEN; LABEL; link_line url; DETAILS_CLOSE]
    with ([[]] ++ DETAILS_OPEN :: LABEL :: [link_line url] ++ DETAILS_CLOSE :: []).
  rewrite app_assoc, strip_loop_block.
  - cbn [new_body]. now rewrite app_nil_r, join_lines_app.
  - intros H. apply in_app_or in H as [H | [H | []]]; [|discriminate].
    revert H. now apply not_in_snoc_NL.
  - intros [H | []]. discriminate H.
  - intros [H | []]. discriminate H.
  - intros [].
Qed.

Lemma strip_after_add_witness :
  remove_cm_details_from_pr_body
    (add_cm_details_to_pr_body (str_of "Adds cursor paging.") url_123)
  = join_lines (splitlines (str_of "Adds cursor paging." ++ [NL])) ++ [NL].
Proof.
  apply (strip_after_add (str_of "Adds cursor paging.") url_123).
  - not_in_lines.
  - unfold url_123. repeat constructor.
Defined.

(** The lines of a text written line by line are among those lines. *)
Lemma splitlines_join_In (ls : list str) (l0 l : str) :
  one_line l0 -> Forall one_line ls ->
  In l (splitlines (l0 ++ join_lines ls)) -> l = l0 \/ In l ls.
Proof.
  intros H0 Hls. revert l0 H0.
  induction Hls as [|l1 ls H1 Hls IH]; intros l0 H0.
  - unfold join_lines. cbn [map concat]. rewrite app_nil_r.
    destruct l0 as [|c l0']; [intros []|].
    rewrite splitlines_last by (assumption || discriminate).
    intros [<- | []]. now left.
  - change (l0 ++ join_lines (l1 :: ls))
      with (l0 ++ NL :: (l1 ++ join_lines ls)).
    rewrite splitlines_line by assumption.
    intros [<- | H]; [now left|].
    right. destruct (IH _ H1 H) as [-> | Hin]; [now left | now right].
Qed.

(** X4 -- After removal the block is gone for extraction too: for a body
    whose only [<details>] line opens the block and whose lines outside the
    block are not the label line, extraction from the body without the block
    returns [None]. *)
Theorem parse_after_strip
        (pr_body : str) (pre inner post : list str) :
  splitlines pr_body =
    pre ++ DETAILS_OPEN :: LABEL :: inner ++ DETAILS_CLOSE :: post ->
  ~ In DETAILS_OPEN pre ->
  ~ In DETAILS_OPEN inner ->
  ~ In DETAILS_CLOSE inner ->
  ~ In DETAILS_OPEN post ->
  ~ In LABEL pre ->
  ~ In LABEL post ->
  parse_cm_info_from_pr_body (remove_cm_details_from_pr_body pr_body) = Ok None.
Proof.
  intros E Hpre Hio Hic Hpost Lpre Lpost.
  unfold parse_cm_info_from_pr_body, remove_cm_details_from_pr_body.
  rewrite E, strip_loop_block by assumption. cbn [new_body].
  apply parse_loop_absent. intros Hin.
  apply (splitlines_join_In (pre ++ post) [] LABEL) in Hin.
  - destruct Hin as [Hin | Hin]; [discriminate|].
    apply in_app_or in Hin as [Hin | Hin]; contradiction.
  - constructor.
  - apply Forall_forall. intros l Hl.
    apply (splitlines_one_line pr_body). rewrite E.
    apply in_app_or in Hl as [Hl | Hl]; apply in_or_app; [now left|].
    right. right. right. apply in_or_app. right. now right.
Qed.

Lemma parse_after_strip_witness :
  parse_cm_info_from_pr_body
    (remove_cm_details_from_pr_body
       (str_of "Intro" ++ [NL] ++ DETAILS_OPEN ++ [NL] ++ LABEL ++ [NL] ++
        link_line url_123 ++ [NL] ++ DETAILS_CLOSE ++ [NL] ++ str_of "Outro"))
  = Ok None.
Proof.
  apply (parse_after_strip
           (str_of "Intro" ++ [NL] ++ DETAILS_OPEN ++ [NL] ++ LABEL ++ [NL] ++
            link_line url_123 ++ [NL] ++ DETAILS_CLOSE ++ [NL] ++ str_of "Outro")
           [str_of "Intro"] [link_line url_123] [str_of "Outro"]).
  - reflexivity.
  - not_in_lines.
  - not_in_lines.
  - not_in_lines.
  - not_in_lines.
  - not_in_lines.
  - not_in_lines.
Defined.

(** X5 -- Extraction ignores what precedes the first label line: when no line
    of [a] is the label line, extraction from [a], a line feed and [b] is
    extraction from [b]. *)
Theorem parse_skips_prefix (a b : str) :
  ~ In LABEL (splitlines a) ->
  parse_cm_info_from_pr_body (a ++ NL :: b) = parse_cm_info_from_pr_body b.
Proof.
  intros H. unfold parse_cm_info_from_pr_body.
  rewrite splitlines_app_NL. apply parse_loop_skip.
  apply not_in_snoc_NL; [discriminate | assumption].
Qed.

Lemma parse_skips_prefix_witness :
  parse_cm_info_from_pr_body (str_of "Intro" ++ NL :: malformed_body)
  = parse_cm_info_from_pr_body malformed_body.
Proof.
  apply (parse_skips_prefix (str_of "Intro") malformed_body). not_in_lines.
Defined.

(** ** Runs of the script *)

Section Runs.

Variable remote : list request -> request -> response.
Variable json_loads : str -> option json.
Variable ASANA_API_TOKEN GITHUB_TOKEN : option str.

Local Abbreviation asana := (post_to_asana remote json_loads ASANA_API_TOKEN).
Local Abbreviation github := (post_to_github remote json_loads GITHUB_TOKEN).

(** A refused request raises and is not repeated. *)
Lemma post_to_asana_refused (uri : str) (data : option json) (method : str) (w : world) :
  (status_code (remote (calls w) (asana_request ASANA_API_TOKEN uri data method))
   > 299)%Z ->
  asana uri data method w =
  (Raise (Exception
            (text (remote (calls w)
                          (asana_request ASANA_API_TOKEN uri data method)))),
   mk_world (calls w ++ [asana_request ASANA_API_TOKEN uri data method])
            (stdout w)).
Proof.
  intros H. rewrite post_to_asana_eq. cbv zeta.
  apply Z.gtb_gt in H. now rewrite H.
Qed.

Lemma post_to_asana_ok (uri : str) (data : option json) (method : str)
      (w : world) (j : json) :
  (status_code (remote (calls w) (asana_request ASANA_API_TOKEN uri data method))
   <= 299)%Z ->
  json_loads (text (remote (calls w)
                           (asana_request ASANA_API_TOKEN uri data method)))
  = Some j ->
  asana uri data method w =
  (Ok j,
   mk_world (calls w ++ [asana_request ASANA_API_TOKEN uri data method])
            (stdout w)).
Proof.
  intros H E. rewrite post_to_asana_eq. cbv zeta.
  replace (status_code _ >? 299)%Z with false
    by (symmetry; rewrite Z.gtb_ltb; apply Z.ltb_ge; assumption).
  now rewrite E.
Qed.

Lemma post_to_github_ok (uri : str) (data : option json) (method : str)
      (w : world) (j : json) :
  (status_code (remote (calls w) (github_request GITHUB_TOKEN uri data method))
   <= 299)%Z ->
  json_loads (text (remote (calls w)
                           (github_request GITHUB_TOKEN uri data method)))
  = Some j ->
  github uri data method w =
  (Ok j,
   mk_world (calls w ++ [github_request GITHUB_TOKEN uri data method])
            (stdout w)).
Proof.
  intros H E. rewrite post_to_github_eq. cbv zeta.
  replace (status_code _ >? 299)%Z with false
    by (symmetry; rewrite Z.gtb_ltb; apply Z.ltb_ge; assumption).
  now rewrite E.
Qed.

(** *** Services that accept every request *)

Section Reliable.

Hypothesis Hstatus : forall h r, (status_code (remote h r) <= 299)%Z.
Hypothesis Hvalid : forall h r, json_loads (text (remote h r)) <> None.

Lemma post_to_asana_reliable (uri : str) (data : option json) (method : str)
      (w : world) :
  exists j,
    asana uri data method w =
    (Ok j,
     mk_world (calls w ++ [asana_request ASANA_API_TOKEN uri data method])
              (stdout w)).
Proof.
  destruct (json_loads (text (remote (calls w)
              (asana_request ASANA_API_TOKEN uri data method)))) as [j|] eqn:E.
  - exists j. now apply post_to_asana_ok.
  - now apply Hvalid in E.
Qed.

Lemma post_to_github_reliable (uri : str) (data : option json) (method : str)
      (w : world) :
  exists j,
    github uri data method w =
    (Ok j,
     mk_world (calls w ++ [github_request GITHUB_TOKEN uri data method])
              (stdout w)).
Proof.
  destruct (json_loads (text (remote (calls w)
              (github_request GITHUB_TOKEN uri data method)))) as [j|] eqn:E.
  - exists j. now apply post_to_github_ok.
  - now apply Hvalid in E.
Qed.

Lemma add_comment_reliable (i : cm_task_info) (comment : str) (w : world) :
  add_comment_to_cm_task remote json_loads ASANA_API_TOKEN (Some i) comment w =
  (Ok tt,
   mk_world
     (calls w ++
      [asana_request ASANA_API_TOKEN
         (str_of "/tasks/" ++ task_gid i ++ str_of "/stories")
         (Some (JObj [(str_of "data", JObj [(str_of "text", JStr comment)])]))
         POST])
     (stdout w)).
Proof.
  unfold add_comment_to_cm_task, info_gid, bind, ret. cbn beta iota.
  destruct (post_to_asana_reliable
              (str_of "/tasks/" ++ task_gid i ++ str_of "/stories")
              (Some (JObj [(str_of "data", JObj [(str_of "text", JStr comment)])]))
              POST w) as [j ->].
  reflexivity.
Qed.

Lemma complete_reliable (i : cm_task_info) (w : world) :
  complete_cm_task remote json_loads ASANA_API_TOKEN (Some i) w =
  (Ok tt,
   mk_world
     (calls w ++
      [asana_request ASANA_API_TOKEN (str_of "/tasks/" ++ task_gid i)
         (Some (JObj [(str_of "data", JObj [(str_of "completed", JBool true)])]))
         PUT])
     (stdout w)).
Proof.
  unfold complete_cm_task, info_gid, bind, ret. cbn beta iota.
  destruct (post_to_asana_reliable
              (str_of "/tasks/" ++ task_gid i)
              (Some (JObj [(str_of "data", JObj [(str_of "completed", JBool true)])]))
              PUT w) as [j ->].
  reflexivity.
Qed.

Lemma delete_reliable (i : cm_task_info) (w : world) :
  delete_cm_task remote json_loads ASANA_API_TOKEN (Some i) w =
  (Ok tt,
   mk_world
     (calls w ++
      [asana_request ASANA_API_TOKEN (str_of "/tasks/" ++ task_gid i) None DELETE])
     (stdout w)).
Proof.
  unfold delete_cm_task, info_gid, bind, ret. cbn beta iota.
  destruct (post_to_asana_reliable (str_of "/tasks/" ++ task_gid i) None DELETE w)
    as [j ->].
  reflexivity.
Qed.

Lemma update_pr_description_reliable
      (args : Args) (pr : pr_data) (i : cm_task_info) (w : world) :
  update_pr_description remote json_loads GITHUB_TOKEN args pr (Some i) w =
  (Ok tt,
   mk_world
     (calls w ++
      [github_request GITHUB_TOKEN (pulls_uri args pr)
         (Some (JObj [(str_of "body",
                       JStr (add_cm_details_to_pr_body (body pr) (task_url i)))]))
         POST])
     (stdout w)).
Proof.
  unfold update_pr_description, info_url, bind, ret. cbn beta iota.
  destruct (post_to_github_reliable
              (pulls_uri args pr)
              (Some (JObj [(str_of "body",
                            JStr (add_cm_details_to_pr_body (body pr) (task_url i)))]))
              POST w) as [j ->].
  reflexivity.
Qed.

Lemma remove_cm_from_pr_description_reliable
      (args : Args) (pr : pr_data) (w : world) :
  remove_cm_from_pr_description remote json_loads GITHUB_TOKEN args pr w =
  (Ok tt,
   mk_world
     (calls w ++
      [github_request GITHUB_TOKEN (pulls_uri args pr)
         (Some (JObj [(str_of "body",
                       JStr (remove_cm_details_from_pr_body (body pr)))]))
         POST])
     (stdout w)).
Proof.
  unfold remove_cm_from_pr_description, bind, ret. cbn beta iota.
  destruct (post_to_github_reliable
              (pulls_uri args pr)
              (Some (JObj [(str_of "body",
                            JStr (remove_cm_details_from_pr_body (body pr)))]))
              POST w) as [j ->].
  reflexivity.
Qed.

End Reliable.

End Runs.

(** *** Creation of the task *)

(** With services that accept every request and a first answer that carries
    the identifier and the permalink, [create_cm_task] sends its three
    requests and returns the two values. *)
Lemma create_cm_task_reliable
      (remote : list request -> request -> response)
      (json_loads : str -> option json)
      (ASANA_API_TOKEN : option str)
        (py_str : json -> str)
      (args : Args) (pr : pr_data) (w : world)
      (org name : str) (gid url task task_data : json) :
  (forall h r, (status_code (remote h r) <= 299)%Z) ->
  (forall h r, json_loads (text (remote h r)) <> None) ->
  repo args = org ++ SLASH :: name ->
  ~ In SLASH org ->
  ~ In SLASH name ->
  json_loads
    (text (remote (calls w)
             (asana_request ASANA_API_TOKEN (str_of "/tasks")
                (Some (JObj [(str_of "data",
                              JObj [(str_of "projects", JList [JStr PROJECT_GID]);
                                    (str_of "followers", JList []);
                                    (str_of "name",
                                     JStr (name ++ str_of ": " ++ title pr))])]))
                POST)))
  = Some task ->
  json_get task (str_of "data") = Ok task_data ->
  json_get task_data (str_of "gid") = Ok gid ->
  json_get task_data (str_of "permalink_url") = Ok url ->
  create_cm_task remote json_loads ASANA_API_TOKEN py_str args pr w =
  (Ok (mk_info (fmt_value py_str gid) (fmt_value py_str url)),
   mk_world
     (calls w ++
      [asana_request ASANA_API_TOKEN (str_of "/tasks")
         (Some (JObj [(str_of "data",
                       JObj [(str_of "projects", JList [JStr PROJECT_GID]);
                             (str_of "followers", JList []);
                             (str_of "name",
                              JStr (name ++ str_of ": " ++ title pr))])]))
         POST;
       asana_request ASANA_API_TOKEN
         (str_of "/tasks/" ++ fmt_value py_str gid ++ str_of "/stories")
         (Some (JObj [(str_of "data",
                       JObj [(str_of "text",
                              JStr (str_of "PR created by " ++ login pr ++
                                    str_of ": " ++ html_href pr))])]))
         POST;
       asana_request ASANA_API_TOKEN
         (str_of "/sections/" ++ SECTION_GID ++ str_of "/addTask")
         (Some (JObj [(str_of "data", JObj [(str_of "task", gid)])]))
         POST])
     (stdout w)).
Proof.
  intros Hstatus Hvalid Hrepo Horg Hname Htask Hdata Hgid Hurl.
  unfold create_cm_task, bind, lift, ret. cbn beta iota.
  rewrite (repo_name_of_org_repo args org name w Hrepo Horg Hname).
  rewrite (post_to_asana_ok _ _ _ _ _ _ _ _ (Hstatus _ _) Htask).
  rewrite Hdata, Hgid, Hurl. cbn [fmt_value].
  rewrite (add_comment_reliable _ _ _ Hstatus Hvalid). cbn [task_gid].
  destruct (post_to_asana_reliable remote json_loads ASANA_API_TOKEN
              Hstatus Hvalid
              (str_of "/sections/" ++ SECTION_GID ++ str_of "/addTask")
              (Some (JObj [(str_of "data", JObj [(str_of "task", gid)])]))
              POST
              (mk_world
                 ((calls w ++
                   [asana_request ASANA_API_TOKEN (str_of "/tasks")
                      (Some (JObj [(str_of "data",
                         JObj [(str_of "projects", JList [JStr PROJECT_GID]);
                               (str_of "followers", JList []);
                               (str_of "name",
                                JStr (name ++ str_of ": " ++ title pr))])]))
                      POST]) ++
                  [asana_request ASANA_API_TOKEN
                     (str_of "/tasks/" ++ fmt_value py_str gid ++ str_of "/stories")
                     (Some (JObj [(str_of "data",
                        JObj [(str_of "text",
                               JStr (str_of "PR created by " ++ login pr ++
                                     str_of ": " ++ html_href pr))])]))
                     POST])
                 (stdout w))) as [j Hj].
  cbn [calls stdout] in *. rewrite Hj.
  cbn [calls stdout]. now rewrite <- !app_assoc.
Qed.

(** X6 -- First event on a pull request without the label.  When the
    repository is given as [org/name], both services accept every request,
    the answer to the creation carries the identifier [gid] and the
    permalink [url] (JSON values of any kind, written into the URIs and the
    body as an f-string formats them), and the action is neither [edited]
    nor [closed], the run succeeds and sends four requests in this order:
    the creation of the task named [name: title], the comment with the
    author and the link of the pull request, the addition of the task to the
    section, and the update of the pull request with the body that carries
    the block for [url]. *)
Theorem opened_run
        (remote : list request -> request -> response)
        (json_loads : str -> option json)
        (ASANA_API_TOKEN GITHUB_TOKEN : option str)
        (py_str : json -> str)
        (args : Args) (p : payload) (w : world)
        (org name : str) (gid url task task_data : json) :
  (forall h r, (status_code (remote h r) <= 299)%Z) ->
  (forall h r, json_loads (text (remote h r)) <> None) ->
  repo args = org ++ SLASH :: name ->
  ~ In SLASH org ->
  ~ In SLASH name ->
  contains LABEL (payload_text p) = false ->
  github_event_action args <> EDITED ->
  github_event_action args <> CLOSED ->
  json_loads
    (text (remote (calls w)
             (asana_request ASANA_API_TOKEN (str_of "/tasks")
                (Some (JObj [(str_of "data",
                              JObj [(str_of "projects", JList [JStr PROJECT_GID]);
                                    (str_of "followers", JList []);
                                    (str_of "name",
                                     JStr (name ++ str_of ": " ++
                                           payload_title p))])]))
                POST)))
  = Some task ->
  json_get task (str_of "data") = Ok task_data ->
  json_get task_data (str_of "gid") = Ok gid ->
  json_get task_data (str_of "permalink_url") = Ok url ->
  fst (main remote json_loads ASANA_API_TOKEN GITHUB_TOKEN py_str args p w) = Ok tt /\
  calls (snd (main remote json_loads ASANA_API_TOKEN GITHUB_TOKEN py_str args p w))
  = calls w ++
    [asana_request ASANA_API_TOKEN (str_of "/tasks")
       (Some (JObj [(str_of "data",
                     JObj [(str_of "projects", JList [JStr PROJECT_GID]);
                           (str_of "followers", JList []);
                           (str_of "name",
                            JStr (name ++ str_of ": " ++ payload_title p))])]))
       POST;
     asana_request ASANA_API_TOKEN
       (str_of "/tasks/" ++ fmt_value py_str gid ++ str_of "/stories")
       (Some (JObj [(str_of "data",
                     JObj [(str_of "text",
                            JStr (str_of "PR created by " ++ payload_login p ++
                                  str_of ": " ++ payload_html_href p))])]))
       POST;
     asana_request ASANA_API_TOKEN
       (str_of "/sections/" ++ SECTION_GID ++ str_of "/addTask")
       (Some (JObj [(str_of "data", JObj [(str_of "task", gid)])]))
       POST;
     github_request GITHUB_TOKEN
       (str_of "/repos/" ++ repo args ++ str_of "/pulls/" ++
        str_of_Z (payload_number p))
       (Some (JObj [(str_of "body",
                     JStr (add_cm_details_to_pr_body (payload_text p)
                                                (fmt_value py_str url)))]))
       POST].
Proof.
  intros Hstatus Hvalid Hrepo Horg Hname Hlabel Hedit Hclosed
         Htask Hdata Hgid Hurl.
  apply str_eqb_neq in Hedit, Hclosed.
  unfold payload_text in *.
  unfold main, bind, print, lift, ret. cbn beta iota zeta. cbn [body].
  rewrite Hlabel, Hedit, Hclosed. cbn [negb].
  erewrite (create_cm_task_reliable remote json_loads ASANA_API_TOKEN py_str args
              _ _ org name gid url task task_data
              Hstatus Hvalid Hrepo Horg Hname);
    [ | exact Htask | exact Hdata | exact Hgid | exact Hurl ].
  rewrite (update_pr_description_reliable _ _ _ Hstatus Hvalid).
  cbn [fst snd calls stdout task_url body]. split; [reflexivity|].
  unfold pulls_uri. cbn [number]. now rewrite <- !app_assoc.
Qed.

Lemma opened_run_witness :
  fst (main remote_ok loads_task None None py_str_0 opened_args empty_payload world0)
  = Ok tt /\
  length (calls (snd (main remote_ok loads_task None None py_str_0
                           opened_args empty_payload world0))) = 4.
Proof.
  pose proof
    (opened_run remote_ok loads_task None None py_str_0 opened_args empty_payload world0
       (str_of "nrfta") (str_of "go-paging") (JStr (str_of "123")) (JStr url_123)
       task_123
       (JObj [(str_of "gid", JStr (str_of "123"));
              (str_of "permalink_url", JStr url_123)])
       ltac:(intros; discriminate) ltac:(intros; discriminate)
       eq_refl ltac:(unfold SLASH; not_in_lines)
       ltac:(unfold SLASH; not_in_lines)
       eq_refl ltac:(discriminate) ltac:(discriminate)
       eq_refl eq_refl eq_refl eq_refl) as [H1 H2].
  split; [exact H1|]. rewrite H2. reflexivity.
Defined.

(** Unfolds a run of [__main__] down to the calls of its helpers. *)
Ltac run_main :=
  unfold main, bind, print, lift, ret; cbn beta iota zeta;
  cbn [body merged login title number].

(** X7 -- No compensation, no retry: when the pull request has no label and
    the tracking service refuses the creation of the task (status code above
    299), the run raises an exception with the body of that answer, having
    sent this one request and nothing to GitHub. *)
Theorem opened_run_refused
        (remote : list request -> request -> response)
        (json_loads : str -> option json)
        (ASANA_API_TOKEN GITHUB_TOKEN : option str)
        (py_str : json -> str)
        (args : Args) (p : payload) (w : world)
        (org name : str) (res : response) :
  repo args = org ++ SLASH :: name ->
  ~ In SLASH org ->
  ~ In SLASH name ->
  contains LABEL (payload_text p) = false ->
  remote (calls w)
    (asana_request ASANA_API_TOKEN (str_of "/tasks")
       (Some (JObj [(str_of "data",
                     JObj [(str_of "projects", JList [JStr PROJECT_GID]);
                           (str_of "followers", JList []);
                           (str_of "name",
                            JStr (name ++ str_of ": " ++ payload_title p))])]))
       POST) = res ->
  (status_code res > 299)%Z ->
  fst (main remote json_loads ASANA_API_TOKEN GITHUB_TOKEN py_str args p w)
  = Raise (Exception (text res)) /\
  calls (snd (main remote json_loads ASANA_API_TOKEN GITHUB_TOKEN py_str args p w))
  = calls w ++
    [asana_request ASANA_API_TOKEN (str_of "/tasks")
       (Some (JObj [(str_of "data",
                     JObj [(str_of "projects", JList [JStr PROJECT_GID]);
                           (str_of "followers", JList []);
                           (str_of "name",
                            JStr (name ++ str_of ": " ++ payload_title p))])]))
       POST].
Proof.
  intros Hrepo Horg Hname Hlabel Hres Hstatus. unfold payload_text in *.
  run_main. rewrite Hlabel. cbn [negb].
  unfold create_cm_task, bind. cbn beta iota.
  rewrite (repo_name_of_org_repo args org name _ Hrepo Horg Hname).
  cbn [title].
  rewrite post_to_asana_refused
    by (cbn [calls]; rewrite Hres; exact Hstatus).
  cbn [fst snd calls stdout]. now rewrite Hres.
Qed.

Lemma opened_run_refused_witness :
  fst (main remote_forbidden loads_task None None py_str_0
            opened_args empty_payload world0)
  = Raise (Exception (str_of "Forbidden")) /\
  length (calls (snd (main remote_forbidden loads_task None None py_str_0
                           opened_args empty_payload world0))) = 1.
Proof.
  pose proof
    (opened_run_refused remote_forbidden loads_task None None py_str_0
       opened_args empty_payload world0
       (str_of "nrfta") (str_of "go-paging")
       (mk_response 403 (str_of "Forbidden"))
       eq_refl ltac:(unfold SLASH; not_in_lines)
       ltac:(unfold SLASH; not_in_lines)
       eq_refl eq_refl eq_refl) as [H1 H2].
  split; [exact H1|]. rewrite H2. reflexivity.
Defined.

(** X8 -- A repository argument without [/]: when the pull request has no
    label, the run raises [IndexError] before any request is sent. *)
Theorem opened_run_bare_repo
        (remote : list request -> request -> response)
        (json_loads : str -> option json)
        (ASANA_API_TOKEN GITHUB_TOKEN : option str)
        (py_str : json -> str)
        (args : Args) (p : payload) (w : world) :
  ~ In SLASH (repo args) ->
  contains LABEL (payload_text p) = false ->
  fst (main remote json_loads ASANA_API_TOKEN GITHUB_TOKEN py_str args p w)
  = Raise IndexError /\
  calls (snd (main remote json_loads ASANA_API_TOKEN GITHUB_TOKEN py_str args p w))
  = calls w.
Proof.
  intros Hrepo Hlabel. unfold payload_text in *.
  run_main. rewrite Hlabel. cbn [negb].
  unfold create_cm_task, bind, repo_name_of, lift. cbn beta iota.
  rewrite (split_none _ _ Hrepo). cbn. now split.
Qed.

Lemma opened_run_bare_repo_witness :
  fst (main remote_ok loads_task None None py_str_0 bare_args empty_payload world0)
  = Raise IndexError /\
  calls (snd (main remote_ok loads_task None None py_str_0 bare_args empty_payload world0))
  = calls world0.
Proof.
  apply (opened_run_bare_repo remote_ok loads_task None None py_str_0
           bare_args empty_payload world0).
  - unfold SLASH. not_in_lines.
  - reflexivity.
Defined.

(** X9 -- An answer to the creation without the expected key: when the
    service accepts the creation and the parsed answer has no value under
    [data] (the lookup raises [e]), [create_cm_task] raises [e] after the
    creation request; the comment and the section requests are not sent. *)
Theorem create_cm_task_bad_answer
        (remote : list request -> request -> response)
        (json_loads : str -> option json)
        (ASANA_API_TOKEN : option str)
        (py_str : json -> str)
        (args : Args) (pr : pr_data) (w : world)
        (org name : str) (res : response) (task : json) (e : exn) :
  repo args = org ++ SLASH :: name ->
  ~ In SLASH org ->
  ~ In SLASH name ->
  remote (calls w)
    (asana_request ASANA_API_TOKEN (str_of "/tasks")
       (Some (JObj [(str_of "data",
                     JObj [(str_of "projects", JList [JStr PROJECT_GID]);
                           (str_of "followers", JList []);
                           (str_of "name",
                            JStr (name ++ str_of ": " ++ title pr))])]))
       POST) = res ->
  (status_code res <= 299)%Z ->
  json_loads (text res) = Some task ->
  json_get task (str_of "data") = Raise e ->
  create_cm_task remote json_loads ASANA_API_TOKEN py_str args pr w =
  (Raise e,
   mk_world
     (calls w ++
      [asana_request ASANA_API_TOKEN (str_of "/tasks")
         (Some (JObj [(str_of "data",
                       JObj [(str_of "projects", JList [JStr PROJECT_GID]);
                             (str_of "followers", JList []);
                             (str_of "name",
                              JStr (name ++ str_of ": " ++ title pr))])]))
         POST])
     (stdout w)).
Proof.
  intros Hrepo Horg Hname Hres Hstatus Hloads Hdata.
  unfold create_cm_task, bind, lift. cbn beta iota.
  rewrite (repo_name_of_org_repo args org name w Hrepo Horg Hname).
  rewrite (post_to_asana_ok remote json_loads ASANA_API_TOKEN _ _ _ w task)
    by (rewrite Hres; assumption).
  now rewrite Hdata.
Qed.

Lemma create_cm_task_bad_answer_witness :
  fst (create_cm_task remote_ok (fun _ => Some (JObj [])) None py_str_0 opened_args
         (mk_pr 7 (str_of "Add cursor paging") [] (str_of "dev") [] false)
         world0)
  = Raise KeyError.
Proof.
  rewrite (create_cm_task_bad_answer remote_ok (fun _ => Some (JObj [])) None py_str_0
             opened_args
             (mk_pr 7 (str_of "Add cursor paging") [] (str_of "dev") [] false)
             world0 (str_of "nrfta") (str_of "go-paging")
             (mk_response 200 []) (JObj []) KeyError
             eq_refl ltac:(unfold SLASH; not_in_lines)
             ltac:(unfold SLASH; not_in_lines)
             eq_refl ltac:(discriminate) eq_refl eq_refl).
  reflexivity.
Defined.

(** *** Runs on a pull request that carries the block *)

(** The body holds the label, and extraction finds the reference. *)
Lemma block_found (pr_body : str) (pre post : list str) (line u : str) :
  splitlines pr_body = pre ++ LABEL :: line :: post ->
  ~ In LABEL pre ->
  href_holds line u ->
  contains LABEL pr_body = true /\
  parse_cm_info_from_pr_body pr_body
  = Ok (Some (mk_info (last (split SLASH u) []) u)).
Proof.
  intros E Hpre Hline. split.
  - apply contains_line. rewrite E. apply in_or_app. right. now left.
  - unfold parse_cm_info_from_pr_body. rewrite E. now apply parse_loop_found.
Qed.

(** X10 -- Merged pull request: when the first label line of the body is
    followed by a link line holding [u], the action is [closed], the pull
    request is merged and the tracking service accepts every request, the
    run succeeds and sends two requests to that service, the comment
    [PR merged by] with the author and then the completion of the task;
    nothing goes to GitHub. *)
Theorem closed_merged_run
        (remote : list request -> request -> response)
        (json_loads : str -> option json)
        (ASANA_API_TOKEN GITHUB_TOKEN : option str)
        (py_str : json -> str)
        (args : Args) (p : payload) (w : world)
        (pr_body : str) (pre post : list str) (line u : str) :
  (forall h r, (status_code (remote h r) <= 299)%Z) ->
  (forall h r, json_loads (text (remote h r)) <> None) ->
  payload_body p = Some pr_body ->
  splitlines pr_body = pre ++ LABEL :: line :: post ->
  ~ In LABEL pre ->
  href_holds line u ->
  github_event_action args = CLOSED ->
  payload_merged p = true ->
  exists gid,
    final_segment u gid /\
    fst (main remote json_loads ASANA_API_TOKEN GITHUB_TOKEN py_str args p w) = Ok tt /\
    calls (snd (main remote json_loads ASANA_API_TOKEN GITHUB_TOKEN py_str args p w))
    = calls w ++
      [asana_request ASANA_API_TOKEN
         (str_of "/tasks/" ++ gid ++ str_of "/stories")
         (Some (JObj [(str_of "data",
                       JObj [(str_of "text",
                              JStr (str_of "PR merged by " ++ payload_login p))])]))
         POST;
       asana_request ASANA_API_TOKEN (str_of "/tasks/" ++ gid)
         (Some (JObj [(str_of "data", JObj [(str_of "completed", JBool true)])]))
         PUT].
Proof.
  intros Hstatus Hvalid Hbody E Hpre Hline Hact Hmerged.
  destruct (block_found pr_body pre post line u E Hpre Hline) as [Hin Hparse].
  exists (last (split SLASH u) []). split; [apply final_segment_last|].
  run_main. rewrite Hbody, Hact, Hmerged, Hin, Hparse. cbn [negb].
  change (str_eqb CLOSED EDITED) with false.
  change (str_eqb CLOSED CLOSED) with true.
  cbn beta iota. cbn [calls stdout].
  rewrite (add_comment_reliable _ _ _ Hstatus Hvalid).
  rewrite (complete_reliable _ _ _ Hstatus Hvalid).
  cbn [fst snd calls stdout task_gid]. split; [reflexivity|].
  now rewrite <- !app_assoc.
Qed.

Lemma closed_merged_run_witness :
  exists gid,
    final_segment url_123 gid /\
    fst (main remote_ok loads_task None None py_str_0 closed_args merged_payload world0)
    = Ok tt /\
    calls (snd (main remote_ok loads_task None None py_str_0
                     closed_args merged_payload world0))
    = calls world0 ++
      [asana_request None
         (str_of "/tasks/" ++ gid ++ str_of "/stories")
         (Some (JObj [(str_of "data",
                       JObj [(str_of "text",
                              JStr (str_of "PR merged by " ++
                                    payload_login merged_payload))])]))
         POST;
       asana_request None (str_of "/tasks/" ++ gid)
         (Some (JObj [(str_of "data", JObj [(str_of "completed", JBool true)])]))
         PUT].
Proof.
  apply (closed_merged_run remote_ok loads_task None None py_str_0
           closed_args merged_payload world0 annotated_body
           [str_of "Adds cursor paging."; []; DETAILS_OPEN] [DETAILS_CLOSE]
           (link_line url_123) url_123).
  - intros; discriminate.
  - intros; discriminate.
  - reflexivity.
  - reflexivity.
  - not_in_lines.
  - apply link_line_href_holds. unfold url_123, DQ. not_in_lines.
  - reflexivity.
  - reflexivity.
Defined.

(** X11 -- Pull request closed without merge: under the same conditions on
    the body and the services, with [merged] false, the run succeeds and
    sends two requests, first the update of the pull request with the body
    that [remove_cm_details_from_pr_body] returns, then the deletion of the
    task. *)
Theorem closed_unmerged_run
        (remote : list request -> request -> response)
        (json_loads : str -> option json)
        (ASANA_API_TOKEN GITHUB_TOKEN : option str)
        (py_str : json -> str)
        (args : Args) (p : payload) (w : world)
        (pr_body : str) (pre post : list str) (line u : str) :
  (forall h r, (status_code (remote h r) <= 299)%Z) ->
  (forall h r, json_loads (text (remote h r)) <> None) ->
  payload_body p = Some pr_body ->
  splitlines pr_body = pre ++ LABEL :: line :: post ->
  ~ In LABEL pre ->
  href_holds line u ->
  github_event_action args = CLOSED ->
  payload_merged p = false ->
  exists gid,
    final_segment u gid /\
    fst (main remote json_loads ASANA_API_TOKEN GITHUB_TOKEN py_str args p w) = Ok tt /\
    calls (snd (main remote json_loads ASANA_API_TOKEN GITHUB_TOKEN py_str args p w))
    = calls w ++
      [github_request GITHUB_TOKEN
         (str_of "/repos/" ++ repo args ++ str_of "/pulls/" ++
          str_of_Z (payload_number p))
         (Some (JObj [(str_of "body",
                       JStr (remove_cm_details_from_pr_body pr_body))]))
         POST;
       asana_request ASANA_API_TOKEN (str_of "/tasks/" ++ gid) None DELETE].
Proof.
  intros Hstatus Hvalid Hbody E Hpre Hline Hact Hmerged.
  destruct (block_found pr_body pre post line u E Hpre Hline) as [Hin Hparse].
  exists (last (split SLASH u) []). split; [apply final_segment_last|].
  run_main. rewrite Hbody, Hact, Hmerged, Hin, Hparse. cbn [negb].
  change (str_eqb CLOSED EDITED) with false.
  change (str_eqb CLOSED CLOSED) with true.
  cbn beta iota. cbn [calls stdout].
  rewrite (remove_cm_from_pr_description_reliable _ _ _ Hstatus Hvalid).
  rewrite (delete_reliable _ _ _ Hstatus Hvalid).
  cbn [fst snd calls stdout task_gid body]. split; [reflexivity|].
  unfold pulls_uri. cbn [number]. now rewrite <- !app_assoc.
Qed.

Lemma closed_unmerged_run_witness :
  exists gid,
    final_segment url_123 gid /\
    fst (main remote_ok loads_task None None py_str_0 closed_args annotated_payload world0)
    = Ok tt /\
    calls (snd (main remote_ok loads_task None None py_str_0
                     closed_args annotated_payload world0))
    = calls world0 ++
      [github_request None
         (str_of "/repos/" ++ repo closed_args ++ str_of "/pulls/" ++
          str_of_Z (payload_number annotated_payload))
         (Some (JObj [(str_of "body",
                       JStr (remove_cm_details_from_pr_body annotated_body))]))
         POST;
       asana_request None (str_of "/tasks/" ++ gid) None DELETE].
Proof.
  apply (closed_unmerged_run remote_ok loads_task None None py_str_0
           closed_args annotated_payload world0 annotated_body
           [str_of "Adds cursor paging."; []; DETAILS_OPEN] [DETAILS_CLOSE]
           (link_line url_123) url_123).
  - intros; discriminate.
  - intros; discriminate.
  - reflexivity.
  - reflexivity.
  - not_in_lines.
  - apply link_line_href_holds. unfold url_123, DQ. not_in_lines.
  - reflexivity.
  - reflexivity.
Defined.

(** X12 -- Any other action: when the body carries the block and the action
    is neither [edited] nor [closed], the run succeeds without sending any
    request. *)
Theorem other_action_run
        (remote : list request -> request -> response)
        (json_loads : str -> option json)
        (ASANA_API_TOKEN GITHUB_TOKEN : option str)
        (py_str : json -> str)
        (args : Args) (p : payload) (w : world)
        (pr_body : str) (pre post : list str) (line u : str) :
  payload_body p = Some pr_body ->
  splitlines pr_body = pre ++ LABEL :: line :: post ->
  ~ In LABEL pre ->
  href_holds line u ->
  github_event_action args <> EDITED ->
  github_event_action args <> CLOSED ->
  fst (main remote json_loads ASANA_API_TOKEN GITHUB_TOKEN py_str args p w) = Ok tt /\
  calls (snd (main remote json_loads ASANA_API_TOKEN GITHUB_TOKEN py_str args p w))
  = calls w.
Proof.
  intros Hbody E Hpre Hline Hedit Hclosed.
  destruct (block_found pr_body pre post line u E Hpre Hline) as [Hin Hparse].
  apply str_eqb_neq in Hedit, Hclosed.
  run_main. rewrite Hbody, Hedit, Hclosed, Hin, Hparse. cbn [negb].
  cbn beta iota. cbn [calls stdout fst snd]. now split.
Qed.

Lemma other_action_run_witness :
  fst (main remote_ok loads_task None None py_str_0 opened_args annotated_payload world0)
  = Ok tt /\
  calls (snd (main remote_ok loads_task None None py_str_0
                   opened_args annotated_payload world0))
  = calls world0.
Proof.
  apply (other_action_run remote_ok loads_task None None py_str_0
           opened_args annotated_payload world0 annotated_body
           [str_of "Adds cursor paging."; []; DETAILS_OPEN] [DETAILS_CLOSE]
           (link_line url_123) url_123).
  - reflexivity.
  - reflexivity.
  - not_in_lines.
  - apply link_line_href_holds. unfold url_123, DQ. not_in_lines.
  - discriminate.
  - discriminate.
Defined.

(** X13 -- A block without its link stops the run: when the first label line
    of the body is followed by a line, other than the label line, without
    [href], the run raises [ValueError] whatever the action, and no request
    is sent. *)
Theorem malformed_block_run
        (remote : list request -> request -> response)
        (json_loads : str -> option json)
        (ASANA_API_TOKEN GITHUB_TOKEN : option str)
        (py_str : json -> str)
        (args : Args) (p : payload) (w : world)
        (pr_body : str) (pre post : list str) (line : str) :
  payload_body p = Some pr_body ->
  splitlines pr_body = pre ++ LABEL :: line :: post ->
  ~ In LABEL pre ->
  line <> LABEL ->
  contains HREF line = false ->
  fst (main remote json_loads ASANA_API_TOKEN GITHUB_TOKEN py_str args p w)
  = Raise ValueError /\
  calls (snd (main remote json_loads ASANA_API_TOKEN GITHUB_TOKEN py_str args p w))
  = calls w.
Proof.
  intros Hbody E Hpre Hline Hhref.
  assert (Hin : contains LABEL pr_body = true).
  { apply contains_line. rewrite E. apply in_or_app. right. now left. }
  assert (Hparse : parse_cm_info_from_pr_body pr_body = Raise ValueError).
  { unfold parse_cm_info_from_pr_body. rewrite E.
    rewrite parse_loop_at_label by assumption.
    unfold parse_link. now rewrite contains_false_index. }
  run_main. rewrite Hbody, Hin, Hparse. cbn [negb].
  cbn beta iota. cbn [calls stdout fst snd]. now split.
Qed.

Lemma malformed_block_run_witness :
  fst (main remote_ok loads_task None None py_str_0 edited_args
            (mk_payload 7 [] (Some malformed_body) [] [] false) world0)
  = Raise ValueError /\
  calls (snd (main remote_ok loads_task None None py_str_0 edited_args
                   (mk_payload 7 [] (Some malformed_body) [] [] false) world0))
  = calls world0.
Proof.
  apply (malformed_block_run remote_ok loads_task None None py_str_0 edited_args
           (mk_payload 7 [] (Some malformed_body) [] [] false) world0
           malformed_body [] [] (str_of "no link here")).
  - reflexivity.
  - reflexivity.
  - not_in_lines.
  - discriminate.
  - reflexivity.
Defined.

(** X14 -- A label inside a sentence: when the body holds the label text but
    no line of it is the label line, no task is created (the label is found
    in the body) and extraction returns [None]; on an [edited] action, with
    the repository given as [org/name], the run then raises [TypeError]
    without sending any request. *)
Theorem inline_label_run
        (remote : list request -> request -> response)
        (json_loads : str -> option json)
        (ASANA_API_TOKEN GITHUB_TOKEN : option str)
        (py_str : json -> str)
        (args : Args) (p : payload) (w : world)
        (pr_body org name : str) :
  payload_body p = Some pr_body ->
  contains LABEL pr_body = true ->
  ~ In LABEL (splitlines pr_body) ->
  github_event_action args = EDITED ->
  repo args = org ++ SLASH :: name ->
  ~ In SLASH org ->
  ~ In SLASH name ->
  fst (main remote json_loads ASANA_API_TOKEN GITHUB_TOKEN py_str args p w)
  = Raise TypeError /\
  calls (snd (main remote json_loads ASANA_API_TOKEN GITHUB_TOKEN py_str args p w))
  = calls w.
Proof.
  intros Hbody Hin Hlines Hact Hrepo Horg Hname.
  assert (Hparse : parse_cm_info_from_pr_body pr_body = Ok None)
    by now apply parse_loop_absent.
  run_main. rewrite Hbody, Hact, Hin, Hparse. cbn [negb].
  change (str_eqb EDITED EDITED) with true.
  unfold update_cm_task_name, bind, info_gid, raise.
  cbn beta iota. cbn [calls stdout].
  rewrite (repo_name_of_org_repo args org name _ Hrepo Horg Hname).
  cbn [calls stdout fst snd]. now split.
Qed.

Lemma inline_label_run_witness :
  fst (main remote_ok loads_task None None py_str_0 edited_args
            (mk_payload 7 [] (Some inline_body) [] [] false) world0)
  = Raise TypeError /\
  calls (snd (main remote_ok loads_task None None py_str_0 edited_args
                   (mk_payload 7 [] (Some inline_body) [] [] false) world0))
  = calls world0.
Proof.
  apply (inline_label_run remote_ok loads_task None None py_str_0 edited_args
           (mk_payload 7 [] (Some inline_body) [] [] false) world0
           inline_body (str_of "nrfta") (str_of "go-paging")).
  - reflexivity.
  - reflexivity.
  - not_in_lines.
  - reflexivity.
  - reflexivity.
  - unfold SLASH. not_in_lines.
  - unfold SLASH. not_in_lines.
Defined.

(** *** What a run never sends *)

Lemma sends_only_ret (P : request -> Prop) {A} (a : A) : sends_only P (ret a).
Proof. intros w. exists []. cbn. now rewrite app_nil_r. Qed.

Lemma sends_only_raise (P : request -> Prop) {A} (e : exn) :
  sends_only P (@raise A e).
Proof. intros w. exists []. cbn. now rewrite app_nil_r. Qed.

Lemma sends_only_lift (P : request -> Prop) {A} (r : result A) :
  sends_only P (lift r).
Proof. intros w. exists []. cbn. now rewrite app_nil_r. Qed.

Lemma sends_only_print (P : request -> Prop) (o : output) :
  sends_only P (print o).
Proof. intros w. exists []. cbn. now rewrite app_nil_r. Qed.

Lemma sends_only_bind (P : request -> Prop) {A B} (m : M A) (k : A -> M B) :
  sends_only P m -> (forall a, sends_only P (k a)) -> sends_only P (bind m k).
Proof.
  intros Hm Hk w. unfold bind.
  destruct (Hm w) as (new1 & E1 & F1).
  destruct (m w) as [[a | e] w1]; cbn [snd] in E1.
  - destruct (Hk a w1) as (new2 & E2 & F2).
    exists (new1 ++ new2). split.
    + now rewrite E2, E1, app_assoc.
    + apply Forall_app. now split.
  - exists new1. now split.
Qed.

Lemma sends_only_asana
      (remote : list request -> request -> response)
      (json_loads : str -> option json) (ASANA_API_TOKEN : option str)
      (uri : str) (data : option json) (method : str) :
  sends_only to_asana
             (post_to_asana remote json_loads ASANA_API_TOKEN uri data method).
Proof.
  intros w. exists [asana_request ASANA_API_TOKEN uri data method]. split.
  - apply post_to_asana_calls.
  - now repeat constructor.
Qed.

Create HintDb sends.
#[local] Hint Resolve sends_only_ret sends_only_raise sends_only_lift
  sends_only_print sends_only_asana : sends.
#[local] Hint Extern 2 (sends_only _ (bind _ _)) =>
  apply sends_only_bind; [|intro] : sends.
#[local] Hint Extern 2 (sends_only _ (if ?b then _ else _)) =>
  destruct b : sends.
#[local] Hint Extern 2 (sends_only _ (match ?x with Some _ => _ | None => _ end)) =>
  destruct x : sends.

(** The helpers that talk to the tracking service talk to it alone. *)
Lemma sends_only_tracking
      (remote : list request -> request -> response)
      (json_loads : str -> option json) (ASANA_API_TOKEN : option str)
      (args : Args) (pr : pr_data) (i : option cm_task_info) (comment : str) :
  sends_only to_asana (update_cm_task_name remote json_loads ASANA_API_TOKEN args pr i) /\
  sends_only to_asana (add_comment_to_cm_task remote json_loads ASANA_API_TOKEN i comment) /\
  sends_only to_asana (complete_cm_task remote json_loads ASANA_API_TOKEN i) /\
  sends_only to_asana (delete_cm_task remote json_loads ASANA_API_TOKEN i).
Proof.
  unfold update_cm_task_name, add_comment_to_cm_task, complete_cm_task,
    delete_cm_task, repo_name_of, info_gid.
  repeat split; auto 10 with sends.
Qed.

(** X15 -- The pull request is left alone: when the body holds the label
    and the action is not [closed], or the pull request is merged, every
    request that the run sends goes to the tracking service, whatever the
    services answer and however the run ends. *)
Theorem run_leaves_pull_request
        (remote : list request -> request -> response)
        (json_loads : str -> option json)
        (ASANA_API_TOKEN GITHUB_TOKEN : option str)
        (py_str : json -> str)
        (args : Args) (p : payload) (w : world) :
  contains LABEL (payload_text p) = true ->
  github_event_action args <> CLOSED \/ payload_merged p = true ->
  exists new,
    calls (snd (main remote json_loads ASANA_API_TOKEN GITHUB_TOKEN py_str args p w))
    = calls w ++ new /\
    Forall to_asana new.
Proof.
  intros Hin Hcase. unfold payload_text in Hin.
  assert (H : sends_only to_asana
                (main remote json_loads ASANA_API_TOKEN GITHUB_TOKEN py_str args p));
    [|apply H].
  unfold main. cbv zeta. cbn [body merged login].
  rewrite Hin. cbn [negb].
  repeat (apply sends_only_bind; [|intro]); auto with sends.
  - destruct (str_eqb (github_event_action args) EDITED); auto with sends.
    apply (sends_only_tracking remote json_loads ASANA_API_TOKEN args _ _ []).
  - destruct (str_eqb (github_event_action args) CLOSED) eqn:Eclosed;
      auto with sends.
    destruct Hcase as [Hne | Hm].
    + apply str_eqb_eq in Eclosed. contradiction.
    + rewrite Hm. apply sends_only_bind; [|intro];
        apply (sends_only_tracking remote json_loads ASANA_API_TOKEN args
                 (mk_pr 0 [] [] [] [] false) _
                 (str_of "PR merged by " ++ payload_login p)).
Qed.

Lemma run_leaves_pull_request_witness :
  exists new,
    calls (snd (main remote_forbidden loads_task None None py_str_0
                     closed_args merged_payload world0))
    = calls world0 ++ new /\
    Forall to_asana new.
Proof.
  apply (run_leaves_pull_request remote_forbidden loads_task None None py_str_0
           closed_args merged_payload world0).
  - reflexivity.
  - right. reflexivity.
Defined.

(** ** Insertion into a body that has a block already *)

(** Once the loop has returned or raised, later lines are not read. *)
Lemma parse_loop_decided (lines more : list str) (next_line : bool) :
  parse_loop next_line lines <> Ok None ->
  parse_loop next_line (lines ++ more) = parse_loop next_line lines.
Proof.
  revert next_line. induction lines as [|l lines IH]; intros next_line H.
  - now contradiction H.
  - cbn [app parse_loop] in *.
    destruct (str_eqb l LABEL); [now apply IH|].
    destruct next_line; [reflexivity | now apply IH].
Qed.

(** X16 -- The first block is the one that counts: when extraction from a
    body returns a reference or raises, extraction from that body with one
    more block appended gives the same result, so a second insertion never
    changes the task that a pull request points to. *)
Theorem add_keeps_first_block (pr_body url : str) :
  parse_cm_info_from_pr_body pr_body <> Ok None ->
  one_line url ->
  parse_cm_info_from_pr_body (add_cm_details_to_pr_body pr_body url)
  = parse_cm_info_from_pr_body pr_body.
Proof.
  intros H Hurl. unfold parse_cm_info_from_pr_body in *.
  rewrite splitlines_add by assumption.
  destruct (splitlines_snoc_NL pr_body) as [-> | ->].
  - now apply parse_loop_decided.
  - rewrite <- app_assoc. now apply parse_loop_decided.
Qed.

Lemma add_keeps_first_block_witness :
  parse_cm_info_from_pr_body
    (add_cm_details_to_pr_body annotated_body (str_of "https://service/0/tasks/456"))
  = parse_cm_info_from_pr_body annotated_body.
Proof.
  apply (add_keeps_first_block annotated_body (str_of "https://service/0/tasks/456")).
  - discriminate.
  - repeat constructor.
Defined.

(** ** A pull request closed before its task exists *)

(** X17 -- Created and deleted at once: on a [closed] action for a pull
    request that is not merged and has no label, with the repository given
    as [org/name] and services that accept every request, the run sends six
    requests: the three of the creation, the update of the pull request
    with the block, then a second update whose body is computed by
    [remove_cm_details_from_pr_body] from the body as it was loaded, and the
    deletion of the task just created. *)
Theorem closed_fresh_run
        (remote : list request -> request -> response)
        (json_loads : str -> option json)
        (ASANA_API_TOKEN GITHUB_TOKEN : option str)
        (py_str : json -> str)
        (args : Args) (p : payload) (w : world)
        (org name : str) (gid url task task_data : json) :
  (forall h r, (status_code (remote h r) <= 299)%Z) ->
  (forall h r, json_loads (text (remote h r)) <> None) ->
  repo args = org ++ SLASH :: name ->
  ~ In SLASH org ->
  ~ In SLASH name ->
  contains LABEL (payload_text p) = false ->
  github_event_action args = CLOSED ->
  payload_merged p = false ->
  json_loads
    (text (remote (calls w)
             (asana_request ASANA_API_TOKEN (str_of "/tasks")
                (Some (JObj [(str_of "data",
                              JObj [(str_of "projects", JList [JStr PROJECT_GID]);
                                    (str_of "followers", JList []);
                                    (str_of "name",
                                     JStr (name ++ str_of ": " ++
                                           payload_title p))])]))
                POST)))
  = Some task ->
  json_get task (str_of "data") = Ok task_data ->
  json_get task_data (str_of "gid") = Ok gid ->
  json_get task_data (str_of "permalink_url") = Ok url ->
  fst (main remote json_loads ASANA_API_TOKEN GITHUB_TOKEN py_str args p w) = Ok tt /\
  calls (snd (main remote json_loads ASANA_API_TOKEN GITHUB_TOKEN py_str args p w))
  = calls w ++
    [asana_request ASANA_API_TOKEN (str_of "/tasks")
       (Some (JObj [(str_of "data",
                     JObj [(str_of "projects", JList [JStr PROJECT_GID]);
                           (str_of "followers", JList []);
                           (str_of "name",
                            JStr (name ++ str_of ": " ++ payload_title p))])]))
       POST;
     asana_request ASANA_API_TOKEN
       (str_of "/tasks/" ++ fmt_value py_str gid ++ str_of "/stories")
       (Some (JObj [(str_of "data",
                     JObj [(str_of "text",
                            JStr (str_of "PR created by " ++ payload_login p ++
                                  str_of ": " ++ payload_html_href p))])]))
       POST;
     asana_request ASANA_API_TOKEN
       (str_of "/sections/" ++ SECTION_GID ++ str_of "/addTask")
       (Some (JObj [(str_of "data", JObj [(str_of "task", gid)])]))
       POST;
     github_request GITHUB_TOKEN
       (str_of "/repos/" ++ repo args ++ str_of "/pulls/" ++
        str_of_Z (payload_number p))
       (Some (JObj [(str_of "body",
                     JStr (add_cm_details_to_pr_body (payload_text p)
                                                (fmt_value py_str url)))]))
       POST;
     github_request GITHUB_TOKEN
       (str_of "/repos/" ++ repo args ++ str_of "/pulls/" ++
        str_of_Z (payload_number p))
       (Some (JObj [(str_of "body",
                     JStr (remove_cm_details_from_pr_body (payload_text p)))]))
       POST;
     asana_request ASANA_API_TOKEN (str_of "/tasks/" ++ fmt_value py_str gid) None DELETE].
Proof.
  intros Hstatus Hvalid Hrepo Horg Hname Hlabel Hact Hmerged
         Htask Hdata Hgid Hurl.
  unfold payload_text in *.
  run_main. rewrite Hlabel, Hact, Hmerged. cbn [negb].
  change (str_eqb CLOSED EDITED) with false.
  change (str_eqb CLOSED CLOSED) with true.
  erewrite (create_cm_task_reliable remote json_loads ASANA_API_TOKEN py_str args
              _ _ org name gid url task task_data
              Hstatus Hvalid Hrepo Horg Hname);
    [ | exact Htask | exact Hdata | exact Hgid | exact Hurl ].
  rewrite (update_pr_description_reliable _ _ _ Hstatus Hvalid).
  cbn beta iota. cbn [calls stdout].
  rewrite (remove_cm_from_pr_description_reliable _ _ _ Hstatus Hvalid).
  rewrite (delete_reliable _ _ _ Hstatus Hvalid).
  cbn [fst snd calls stdout task_gid task_url body]. split; [reflexivity|].
  unfold pulls_uri. cbn [number]. now rewrite <- !app_assoc.
Qed.

Lemma closed_fresh_run_witness :
  fst (main remote_ok loads_task None None py_str_0 closed_args empty_payload world0)
  = Ok tt /\
  length (calls (snd (main remote_ok loads_task None None py_str_0
                           closed_args empty_payload world0))) = 6.
Proof.
  pose proof
    (closed_fresh_run remote_ok loads_task None None py_str_0 closed_args empty_payload
       world0 (str_of "nrfta") (str_of "go-paging") (JStr (str_of "123"))
       (JStr url_123) task_123
       (JObj [(str_of "gid", JStr (str_of "123"));
              (str_of "permalink_url", JStr url_123)])
       ltac:(intros; discriminate) ltac:(intros; discriminate)
       eq_refl ltac:(unfold SLASH; not_in_lines)
       ltac:(unfold SLASH; not_in_lines)
       eq_refl eq_refl eq_refl
       eq_refl eq_refl eq_refl eq_refl) as [H1 H2].
  split; [exact H1|]. rewrite H2. reflexivity.
Defined.
